(** * Grouped MoE GEMM: configuration dispatch and launch

    A shallow embedding of
    [onnxruntime/contrib_ops/cuda/moe/ft_moe/moe_gemm_kernels_template.h]
    (namespace [ort_fastertransformer]).

    The C++ code is a tower of template dispatchers around one kernel
    launcher.  Template parameters become ordinary arguments, [ORT_THROW]
    becomes the [Throw] outcome of a state-and-exception monad, and every
    call into CUTLASS or the CUDA runtime is a field of a [Device] record
    whose use is logged in a trace of events, so that "no kernel launch was
    issued" is a statement about the trace. *)

From Stdlib Require Import ZArith String List Lia Bool.
From stdpp Require Import base list pretty.

Open Scope string_scope.
Open Scope list_scope.
Open Scope Z_scope.

(** ** Machine integers

    [int] is a 32-bit two's complement integer.  The only arithmetic the
    file performs on it is one multiplication; it is modelled with its
    wrap-around written out. *)

Definition wrap_int (z : Z) : Z := (z + 2 ^ 31) mod 2 ^ 32 - 2 ^ 31.

Definition int_mul (a b : Z) : Z := wrap_int (a * b).

Definition in_int_range (z : Z) : Prop := - 2 ^ 31 <= z < 2 ^ 31.

(** ** Configuration data (declared in the heuristic's header)

    The enumerators are the ones this file names in its [case] labels;
    [TileConfigOther] stands for any enumerator it does not name, which a
    [switch] sends to its [default] branch. *)

Inductive CutlassTileConfig : Type :=
| Undefined
| ChooseWithHeuristic
| CtaShape128x128x8_WarpShape64x64x8
| CtaShape32x128x64_WarpShape32x32x64
| CtaShape64x128x64_WarpShape32x64x64
| CtaShape64x128x64_WarpShape64x32x64
| CtaShape128x128x64_WarpShape64x32x64
| CtaShape128x128x64_WarpShape128x32x64
| TileConfigOther.

(** [SplitKOther] is any split-k style that is not [NO_SPLIT_K]. *)
Inductive SplitKStyle : Type :=
| NO_SPLIT_K
| SplitKOther.

Record CutlassGemmConfig : Type := {
  tile_config : CutlassTileConfig;
  split_k_style : SplitKStyle;
  split_k_factor : Z;
  stages : Z
}.

Definition is_no_split_k (s : SplitKStyle) : bool :=
  match s with NO_SPLIT_K => true | SplitKOther => false end.

(** ** Template parameters *)

(** Element types that [T] and [WeightType] range over. *)
Inductive ElementType : Type := half | float | uint8_t | uint4b_t.

(** [std::is_same<T1, T2>::value]. *)
Definition is_same (t1 t2 : ElementType) : bool :=
  match t1, t2 with
  | half, half | float, float | uint8_t, uint8_t | uint4b_t, uint4b_t => true
  | _, _ => false
  end.

(** [cutlass::arch::Sm70], [Sm75], [Sm80] and their [kMinComputeCapability]. *)
Inductive Arch : Type := Sm70 | Sm75 | Sm80.

Definition kMinComputeCapability (a : Arch) : Z :=
  match a with Sm70 => 70 | Sm75 => 75 | Sm80 => 80 end.

Inductive EpilogueTag : Type :=
| EpilogueOpBiasReLU
| EpilogueOpBiasFtGelu
| EpilogueOpBiasSilu
| EpilogueOpBias
| EpilogueOpNoBias.

(** [ActivationType]; [ActivationOther] is any enumerator the switch of
    [moe_gemm_bias_act] does not name. *)
Inductive ActivationType : Type :=
| Relu
| Gelu
| Silu
| Identity
| InvalidType
| ActivationOther.

(** [cutlass::gemm::GemmShape<M, N, K>]. *)
Record GemmShape : Type := { kM : Z; kN : Z; kK : Z }.

(** One instantiation of [generic_moe_gemm_kernelLauncher]: the seven
    template arguments determine [GemmKernel] and [GemmGrouped]. *)
Record Kernel : Type := {
  kT : ElementType;
  kWeightType : ElementType;
  karch : Arch;
  kEpilogueTag : EpilogueTag;
  kThreadblockShape : GemmShape;
  kWarpShape : GemmShape;
  kStages : Z
}.

(** ** Call data *)

(** Device addresses and the stream handle are opaque numbers; [nullptr]
    is [0]. *)
Definition ptr : Type := Z.
Definition nullptr : ptr := 0.
Definition cudaStream_t : Type := Z.

(** The operands every layer passes on unchanged
    ([A, B, weight_scales, biases, C, total_rows_before_expert, total_rows,
    gemm_n, gemm_k, num_experts, stream]), bundled. *)
Record GemmProblem : Type := {
  gp_A : ptr;
  gp_B : ptr;
  gp_weight_scales : ptr;
  gp_biases : ptr;
  gp_C : ptr;
  gp_total_rows_before_expert : ptr;
  gp_total_rows : Z;
  gp_gemm_n : Z;
  gp_gemm_k : Z;
  gp_num_experts : Z;
  gp_stream : cudaStream_t
}.

(** [typename GemmGrouped::Arguments args(...)], lines 127-133.  The
    epilogue parameters are [ElementAccumulator(1.f)] and
    [ElementAccumulator(0.f)]. *)
Record Arguments : Type := {
  arg_num_experts : Z;
  arg_threadblock_count : Z;
  arg_epilogue_alpha : Z;
  arg_epilogue_beta : Z;
  arg_A : ptr;
  arg_B : ptr;
  arg_weight_scales : ptr;
  arg_biases : ptr;
  arg_C : ptr;
  arg_total_rows_before_expert : ptr;
  arg_gemm_n : Z;
  arg_gemm_k : Z
}.

(** [cutlass::Status]: success, or a failure known by the text
    [cutlassGetStatusString] gives for it. *)
Inductive Status : Type :=
| kSuccess
| kFailure (status_string : string).

(** ** Exceptions *)

(** The three overloads of [dispatch_moe_gemm_to_cutlass]. *)
Inductive DispatchPath : Type := SameTypeTensorop | MixedTypeTensorop | Simt.

(** One constructor per [ORT_THROW] of the file, plus the failure of the
    heuristic, which is raised outside this file. *)
Inductive Error : Type :=
| SplitKNotSupported
| LacksSharedMemory
| CanImplementFailed (status_string : string)
| InitializeFailed (status_string : string)
| RunFailed (status_string : string)
| StagesNotInstantiated (arch_cc : Z) (Stages : Z)
| StagesNotSupported (stages : Z)
| ConfigUndefined (path : DispatchPath)
| ConfigNotSetByHeuristic (path : DispatchPath)
| ConfigInvalidForPath (path : DispatchPath)
| ArchUnsupported
| InvalidActivation
| HeuristicFailed (message : string).

(** The message each [ORT_THROW] carries. *)
Definition what (e : Error) : string :=
  match e with
  | SplitKNotSupported =>
      "[FT Error][MoeGemm] Grouped gemm does not support split-k"
  | LacksSharedMemory =>
      "[FT Error][MoE Runner] GPU lacks the shared memory resources to run GroupedGEMM kernel"
  | CanImplementFailed st =>
      "[FT Error][MoE Runner] " +:+ ("MoEFC kernel will fail for params. Error: " +:+ st)
  | InitializeFailed st =>
      "[FT Error][MoE Runner] "
        +:+ ("Failed to initialize cutlass variable batched gemm. Error: " +:+ st)
  | RunFailed st =>
      "[FT Error][MoE Runner] "
        +:+ ("Failed to run cutlass variable batched gemm. Error: " +:+ st)
  | StagesNotInstantiated cc st =>
      "[FT Error][dispatch_stages::dispatch] "
        +:+ ("Cutlass fpA_intB gemm. Not instantiates for arch " +:+ pretty cc
               +:+ " with stages set to " +:+ pretty st)
  | StagesNotSupported st =>
      "[FT Error][MoE][dispatch_gemm_config] "
        +:+ ("dispatch_gemm_config does not support stages " +:+ pretty st)
  | ConfigUndefined Simt =>
      "[FT Error][dispatch_moe_gemm_to_cutlass][SIMT] gemm config undefined."
  | ConfigUndefined _ =>
      "[FT Error][dispatch_moe_gemm_to_cutlass] gemm config undefined."
  | ConfigNotSetByHeuristic Simt =>
      "[FT Error][dispatch_moe_gemm_to_cutlass][SIMT] gemm config should have already been set by heuristic."
  | ConfigNotSetByHeuristic _ =>
      "[FT Error][dispatch_moe_gemm_to_cutlass] gemm config should have already been set by heuristic."
  | ConfigInvalidForPath SameTypeTensorop =>
      "[FT Error][dispatch_moe_gemm_to_cutlass] Config is invalid for same type MoE tensorop GEMM."
  | ConfigInvalidForPath MixedTypeTensorop =>
      "[FT Error][dispatch_moe_gemm_to_cutlass] Config is invalid for mixed type tensorop GEMM."
  | ConfigInvalidForPath Simt =>
      "[FT Error][dispatch_moe_gemm_to_cutlass][SIMT] Unsupported config for float MoE gemm."
  | ArchUnsupported =>
      "[FT Error][MoE][GEMM Dispatch] Arch unsupported for MoE GEMM"
  | InvalidActivation =>
      "[FT Error][MoE Runner] Invalid activation type for MoE GEMM"
  | HeuristicFailed m => m
  end.

(** The error taxonomy: which family a failure belongs to. *)
Inductive ErrorClass : Type :=
| ConfigurationError
| ResourceError
| UnsupportedArchitectureError
| PreflightRejection
| LaunchError
| SelectionError.

Definition error_class (e : Error) : ErrorClass :=
  match e with
  | SplitKNotSupported => ConfigurationError
  | StagesNotInstantiated _ _ => ConfigurationError
  | StagesNotSupported _ => ConfigurationError
  | ConfigUndefined _ => ConfigurationError
  | ConfigNotSetByHeuristic _ => ConfigurationError
  | ConfigInvalidForPath _ => ConfigurationError
  | InvalidActivation => ConfigurationError
  | LacksSharedMemory => ResourceError
  | ArchUnsupported => UnsupportedArchitectureError
  | CanImplementFailed _ => PreflightRejection
  | InitializeFailed _ => LaunchError
  | RunFailed _ => LaunchError
  | HeuristicFailed _ => SelectionError
  end.

(** ** Effects

    The code returns [void] everywhere: what it does is throw, write one
    [int] through [kernel_occupancy], and call the device.  [M S A] is a
    computation over a state [S] that ends in a value or in an exception;
    the state reached when the exception was thrown is kept, so that what
    happened before the throw can be read off it. *)

Inductive Result (A : Type) : Type :=
| Ok (a : A)
| Throw (e : Error).

Arguments Ok {A} a.
Arguments Throw {A} e.

Definition M (S A : Type) : Type := S -> Result A * S.

Definition ret {S A : Type} (a : A) : M S A := fun s => (Ok a, s).

Definition bind {S A B : Type} (m : M S A) (f : A -> M S B) : M S B :=
  fun s =>
    match m s with
    | (Ok a, s') => f a s'
    | (Throw e, s') => (Throw e, s')
    end.

Definition ORT_THROW {S A : Type} (e : Error) : M S A := fun s => (Throw e, s).

Notation "x <- m ;; k" := (bind m (fun x => k))
  (at level 100, m at next level, right associativity).
Notation "m ;; k" := (bind m (fun _ => k))
  (at level 100, right associativity).

(** Calls into CUTLASS and the CUDA runtime, in the order they happen. *)
Inductive Event : Type :=
| EvComputeOccupancy (k : Kernel)
| EvMaximumActiveBlocks (k : Kernel)
| EvCanImplement (k : Kernel) (args : Arguments)
| EvInitialize (k : Kernel) (args : Arguments)
| EvRun (k : Kernel) (args : Arguments) (stream : cudaStream_t).

(** A kernel launch is a call of [gemm.run(stream)]. *)
Definition is_launch (e : Event) : bool :=
  match e with EvRun _ _ _ => true | _ => false end.

Definition launches (t : list Event) : nat :=
  length (List.filter is_launch t).

(** A device query is a call of [compute_occupancy_for_kernel] or of
    [maximum_active_blocks]. *)
Definition is_device_query (e : Event) : bool :=
  match e with
  | EvComputeOccupancy _ | EvMaximumActiveBlocks _ => true
  | _ => false
  end.

(** The collaborators of [cutlass_heuristic.h], which is not part of this
    file: they are parameters.  Their argument lists are the ones of the two
    call sites in [run_gemm]; the selection either returns a configuration
    or throws. *)
Record Heuristic : Type := {
  get_candidate_configs : Z -> bool -> bool -> list CutlassGemmConfig;
  estimate_best_config_from_occupancies :
    list CutlassGemmConfig -> list Z -> Z -> Z -> Z -> Z -> Z -> Z -> Z -> bool ->
    Result CutlassGemmConfig
}.

(** [MoeGemmRunner]'s two data members. *)
Record MoeGemmRunner : Type := {
  sm_ : Z;
  multi_processor_count_ : Z
}.

Section Engine.

(** Device memory (activations, weights, the row-boundary table, the output
    buffer) is never read or written by the host code; only a kernel that
    runs changes it. *)
Context {Mem : Type}.

(** What the host code calls on the device.  [compute_occupancy_for_kernel]
    and [maximum_active_blocks] are per kernel instantiation;
    [gemm_can_implement], [gemm_initialize] and [gemm_run] are the methods
    of the [GemmGrouped] object. *)
Record Device : Type := {
  cudaDevAttrMultiProcessorCount : Z;
  compute_occupancy_for_kernel : Kernel -> Z;
  maximum_active_blocks : Kernel -> Z;
  gemm_can_implement : Kernel -> Arguments -> Status;
  gemm_initialize : Kernel -> Arguments -> Status;
  gemm_run : Kernel -> Arguments -> cudaStream_t -> Mem -> Status * Mem
}.

(** [occupancies] is the host vector the [kernel_occupancy] pointers point
    into: [Some i] is [&occupancies[i]], [None] is [nullptr]. *)
Record State : Type := {
  occupancies : list Z;
  device_mem : Mem;
  trace : list Event
}.

Definition log (e : Event) (s : State) : State :=
  {| occupancies := occupancies s;
     device_mem := device_mem s;
     trace := trace s ++ [e] |}.

Definition call_compute_occupancy (dev : Device) (k : Kernel) : M State Z :=
  fun s => (Ok (compute_occupancy_for_kernel dev k), log (EvComputeOccupancy k) s).

Definition call_maximum_active_blocks (dev : Device) (k : Kernel) : M State Z :=
  fun s => (Ok (maximum_active_blocks dev k), log (EvMaximumActiveBlocks k) s).

Definition call_can_implement (dev : Device) (k : Kernel) (args : Arguments)
  : M State Status :=
  fun s => (Ok (gemm_can_implement dev k args), log (EvCanImplement k args) s).

Definition call_initialize (dev : Device) (k : Kernel) (args : Arguments)
  : M State Status :=
  fun s => (Ok (gemm_initialize dev k args), log (EvInitialize k args) s).

Definition call_run (dev : Device) (k : Kernel) (args : Arguments)
  (stream : cudaStream_t) : M State Status :=
  fun s =>
    let '(status, mem') := gemm_run dev k args stream (device_mem s) in
    (Ok status,
     {| occupancies := occupancies s;
        device_mem := mem';
        trace := trace s ++ [EvRun k args stream] |}).

(** [*kernel_occupancy = v]. *)
Definition store_occupancy (cell : nat) (v : Z) : M State unit :=
  fun s =>
    (Ok tt,
     {| occupancies := <[cell := v]> (occupancies s);
        device_mem := device_mem s;
        trace := trace s |}).

(** [std::vector<int> occupancies(n)]: [n] zeros. *)
Definition new_occupancies (n : nat) : M State unit :=
  fun s =>
    (Ok tt,
     {| occupancies := replicate n 0;
        device_mem := device_mem s;
        trace := trace s |}).

(** The constructor call [GemmGrouped::Arguments args(num_experts,
    threadblock_count, epilogue_op, A, B, weight_scales, biases, C,
    total_rows_before_expert, gemm_n, gemm_k)], lines 127-133. *)
Definition GemmGrouped_Arguments (p : GemmProblem) (threadblock_count : Z)
  : Arguments :=
  {| arg_num_experts := gp_num_experts p;
     arg_threadblock_count := threadblock_count;
     arg_epilogue_alpha := 1;
     arg_epilogue_beta := 0;
     arg_A := gp_A p;
     arg_B := gp_B p;
     arg_weight_scales := gp_weight_scales p;
     arg_biases := gp_biases p;
     arg_C := gp_C p;
     arg_total_rows_before_expert := gp_total_rows_before_expert p;
     arg_gemm_n := gp_gemm_n p;
     arg_gemm_k := gp_gemm_k p |}.

(** *** [generic_moe_gemm_kernelLauncher], lines 64-157 *)
Definition generic_moe_gemm_kernelLauncher (dev : Device)
  (T WeightType : ElementType) (arch : Arch) (tag : EpilogueTag)
  (ThreadblockShape WarpShape : GemmShape) (Stages : Z)
  (p : GemmProblem) (gemm_config : CutlassGemmConfig)
  (multi_processor_count : Z) (kernel_occupancy : option nat) : M State unit :=
  if negb (is_no_split_k (split_k_style gemm_config)) then
    ORT_THROW SplitKNotSupported
  else
    let GemmKernel :=
      {| kT := T; kWeightType := WeightType; karch := arch; kEpilogueTag := tag;
         kThreadblockShape := ThreadblockShape; kWarpShape := WarpShape;
         kStages := Stages |} in
    match kernel_occupancy with
    | Some cell =>
        v <- call_compute_occupancy dev GemmKernel ;;
        store_occupancy cell v
    | None =>
        active <- call_maximum_active_blocks dev GemmKernel ;;
        let occupancy := Z.min 2 active in
        if occupancy =? 0 then ORT_THROW LacksSharedMemory
        else
          let threadblock_count := int_mul multi_processor_count occupancy in
          let args := GemmGrouped_Arguments p threadblock_count in
          can_implement <- call_can_implement dev GemmKernel args ;;
          match can_implement with
          | kFailure msg => ORT_THROW (CanImplementFailed msg)
          | kSuccess =>
              init_status <- call_initialize dev GemmKernel args ;;
              match init_status with
              | kFailure msg => ORT_THROW (InitializeFailed msg)
              | kSuccess =>
                  run_status <- call_run dev GemmKernel args (gp_stream p) ;;
                  match run_status with
                  | kFailure msg => ORT_THROW (RunFailed msg)
                  | kSuccess => ret tt
                  end
              end
          end
    end.

(** *** [dispatch_stages], lines 159-197

    The primary template throws; it is specialised for [Stages = 2] on
    every architecture and for [Stages > 2] on [Sm80]. *)
Definition dispatch_stages (dev : Device)
  (T WeightType : ElementType) (arch : Arch) (tag : EpilogueTag)
  (ThreadblockShape WarpShape : GemmShape) (Stages : Z)
  (p : GemmProblem) (gemm_config : CutlassGemmConfig)
  (multi_processor_count : Z) (occupancy : option nat) : M State unit :=
  if Stages =? 2 then
    generic_moe_gemm_kernelLauncher dev T WeightType arch tag ThreadblockShape
      WarpShape 2 p gemm_config multi_processor_count occupancy
  else
    match arch with
    | Sm80 =>
        if 2 <? Stages then
          generic_moe_gemm_kernelLauncher dev T WeightType Sm80 tag
            ThreadblockShape WarpShape Stages p gemm_config
            multi_processor_count occupancy
        else ORT_THROW (StagesNotInstantiated (kMinComputeCapability arch) Stages)
    | _ => ORT_THROW (StagesNotInstantiated (kMinComputeCapability arch) Stages)
    end.

(** *** [dispatch_gemm_config], lines 199-226 *)
Definition dispatch_gemm_config (dev : Device)
  (T WeightType : ElementType) (arch : Arch) (tag : EpilogueTag)
  (ThreadblockShape WarpShape : GemmShape)
  (p : GemmProblem) (gemm_config : CutlassGemmConfig)
  (multi_processor_count : Z) (occupancy : option nat) : M State unit :=
  match stages gemm_config with
  | 2 => dispatch_stages dev T WeightType arch tag ThreadblockShape WarpShape 2
           p gemm_config multi_processor_count occupancy
  | 3 => dispatch_stages dev T WeightType arch tag ThreadblockShape WarpShape 3
           p gemm_config multi_processor_count occupancy
  | 4 => dispatch_stages dev T WeightType arch tag ThreadblockShape WarpShape 4
           p gemm_config multi_processor_count occupancy
  | _ => ORT_THROW (StagesNotSupported (stages gemm_config))
  end.

(** Shorthand for [cutlass::gemm::GemmShape<m, n, k>]. *)
Definition Shape (m n k : Z) : GemmShape := {| kM := m; kN := n; kK := k |}.

(** *** [dispatch_moe_gemm_to_cutlass], lines 228-335

    Three overloads, chosen by SFINAE on [T] and [WeightType].  The unused
    parameters [total_rows] and [sm_version] are part of [p] and of the
    signature only. *)

(** Tensor-op GEMMs with [T == WeightType], lines 230-267. *)
Definition dispatch_moe_gemm_to_cutlass_same_type (dev : Device)
  (T WeightType : ElementType) (arch : Arch) (tag : EpilogueTag)
  (p : GemmProblem) (gemm_config : CutlassGemmConfig) (sm_version : Z)
  (multi_processor_count : Z) (occupancy : option nat) : M State unit :=
  match tile_config gemm_config with
  | CtaShape32x128x64_WarpShape32x32x64 =>
      dispatch_gemm_config dev T WeightType arch tag
        (Shape 32 128 64) (Shape 32 32 64)
        p gemm_config multi_processor_count occupancy
  | CtaShape64x128x64_WarpShape32x64x64 =>
      dispatch_gemm_config dev T WeightType arch tag
        (Shape 64 128 64) (Shape 32 64 64)
        p gemm_config multi_processor_count occupancy
  | CtaShape128x128x64_WarpShape64x32x64 =>
      dispatch_gemm_config dev T WeightType arch tag
        (Shape 128 128 64) (Shape 64 32 64)
        p gemm_config multi_processor_count occupancy
  | Undefined => ORT_THROW (ConfigUndefined SameTypeTensorop)
  | ChooseWithHeuristic => ORT_THROW (ConfigNotSetByHeuristic SameTypeTensorop)
  | _ => ORT_THROW (ConfigInvalidForPath SameTypeTensorop)
  end.

(** Tensor-op GEMMs with quantized weights, lines 272-308. *)
Definition dispatch_moe_gemm_to_cutlass_mixed_type (dev : Device)
  (T WeightType : ElementType) (arch : Arch) (tag : EpilogueTag)
  (p : GemmProblem) (gemm_config : CutlassGemmConfig) (sm_version : Z)
  (multi_processor_count : Z) (occupancy : option nat) : M State unit :=
  match tile_config gemm_config with
  | CtaShape32x128x64_WarpShape32x32x64 =>
      dispatch_gemm_config dev T WeightType arch tag
        (Shape 32 128 64) (Shape 32 32 64)
        p gemm_config multi_processor_count occupancy
  | CtaShape64x128x64_WarpShape64x32x64 =>
      dispatch_gemm_config dev T WeightType arch tag
        (Shape 64 128 64) (Shape 64 32 64)
        p gemm_config multi_processor_count occupancy
  | CtaShape128x128x64_WarpShape128x32x64 =>
      dispatch_gemm_config dev T WeightType arch tag
        (Shape 128 128 64) (Shape 128 32 64)
        p gemm_config multi_processor_count occupancy
  | Undefined => ORT_THROW (ConfigUndefined MixedTypeTensorop)
  | ChooseWithHeuristic => ORT_THROW (ConfigNotSetByHeuristic MixedTypeTensorop)
  | _ => ORT_THROW (ConfigInvalidForPath MixedTypeTensorop)
  end.

(** SIMT GEMMs ([T == float]), lines 311-335. *)
Definition dispatch_moe_gemm_to_cutlass_simt (dev : Device)
  (T WeightType : ElementType) (arch : Arch) (tag : EpilogueTag)
  (p : GemmProblem) (gemm_config : CutlassGemmConfig) (sm_version : Z)
  (multi_processor_count : Z) (occupancy : option nat) : M State unit :=
  match tile_config gemm_config with
  | CtaShape128x128x8_WarpShape64x64x8 =>
      dispatch_gemm_config dev T WeightType arch tag
        (Shape 128 128 8) (Shape 64 64 8)
        p gemm_config multi_processor_count occupancy
  | Undefined => ORT_THROW (ConfigUndefined Simt)
  | ChooseWithHeuristic => ORT_THROW (ConfigNotSetByHeuristic Simt)
  | _ => ORT_THROW (ConfigInvalidForPath Simt)
  end.

(** Which overload the [enable_if] conditions leave viable. *)
Definition dispatch_path (T WeightType : ElementType) : DispatchPath :=
  if is_same T float then Simt
  else if is_same T WeightType then SameTypeTensorop
  else MixedTypeTensorop.

Definition dispatch_moe_gemm_to_cutlass (dev : Device)
  (T WeightType : ElementType) (arch : Arch) (tag : EpilogueTag)
  (p : GemmProblem) (gemm_config : CutlassGemmConfig) (sm_version : Z)
  (multi_processor_count : Z) (occupancy : option nat) : M State unit :=
  match dispatch_path T WeightType with
  | SameTypeTensorop =>
      dispatch_moe_gemm_to_cutlass_same_type dev T WeightType arch tag
        p gemm_config sm_version multi_processor_count occupancy
  | MixedTypeTensorop =>
      dispatch_moe_gemm_to_cutlass_mixed_type dev T WeightType arch tag
        p gemm_config sm_version multi_processor_count occupancy
  | Simt =>
      dispatch_moe_gemm_to_cutlass_simt dev T WeightType arch tag
        p gemm_config sm_version multi_processor_count occupancy
  end.

(** *** [MoeGemmRunner::initialize], lines 340-346 *)
Definition initialize (dev : Device) (sm_version : Z) : MoeGemmRunner :=
  {| sm_ := sm_version;
     multi_processor_count_ := cudaDevAttrMultiProcessorCount dev |}.

(** *** [MoeGemmRunner::dispatch_to_arch], lines 348-371 *)
Definition dispatch_to_arch (dev : Device) (this : MoeGemmRunner)
  (T WeightType : ElementType) (tag : EpilogueTag)
  (p : GemmProblem) (gemm_config : CutlassGemmConfig)
  (occupancy : option nat) : M State unit :=
  if (70 <=? sm_ this) && (sm_ this <? 75) then
    dispatch_moe_gemm_to_cutlass dev T WeightType Sm70 tag p gemm_config
      (sm_ this) (multi_processor_count_ this) occupancy
  else if (75 <=? sm_ this) && (sm_ this <? 80) then
    dispatch_moe_gemm_to_cutlass dev T WeightType Sm75 tag p gemm_config
      (sm_ this) (multi_processor_count_ this) occupancy
  else if (80 <=? sm_ this) && (sm_ this <? 90) then
    dispatch_moe_gemm_to_cutlass dev T WeightType Sm80 tag p gemm_config
      (sm_ this) (multi_processor_count_ this) occupancy
  else ORT_THROW ArchUnsupported.

(** *** [MoeGemmRunner::run_gemm], lines 373-397 *)

(** The loop of lines 384-387: candidate [ii] is dispatched with
    [&occupancies[ii]]. *)
Fixpoint probe_occupancies (dev : Device) (this : MoeGemmRunner)
  (T WeightType : ElementType) (tag : EpilogueTag) (p : GemmProblem)
  (candidate_configs : list CutlassGemmConfig) (ii : nat) : M State unit :=
  match candidate_configs with
  | [] => ret tt
  | config :: rest =>
      dispatch_to_arch dev this T WeightType tag p config (Some ii) ;;
      probe_occupancies dev this T WeightType tag p rest (S ii)
  end.

Definition workspace_bytes : Z := 0.
Definition split_k_limit : Z := 1.

(** The call of lines 391-393: the heuristic reads the candidates, the
    occupancy vector, the problem sizes and the runner's multiprocessor
    count. *)
Definition select_config (h : Heuristic) (this : MoeGemmRunner)
  (T WeightType : ElementType) (p : GemmProblem)
  (candidate_configs : list CutlassGemmConfig) : M State CutlassGemmConfig :=
  fun s =>
    (estimate_best_config_from_occupancies h candidate_configs (occupancies s)
       (gp_total_rows p) (gp_gemm_n p) (gp_gemm_k p) (gp_num_experts p)
       split_k_limit workspace_bytes (multi_processor_count_ this)
       (negb (is_same T WeightType)),
     s).

Definition run_gemm (h : Heuristic) (dev : Device) (this : MoeGemmRunner)
  (T WeightType : ElementType) (tag : EpilogueTag) (p : GemmProblem)
  : M State unit :=
  let is_weight_only := negb (is_same T WeightType) in
  let only_simt_configs := is_same T float in
  let candidate_configs :=
    get_candidate_configs h (sm_ this) is_weight_only only_simt_configs in
  new_occupancies (length candidate_configs) ;;
  probe_occupancies dev this T WeightType tag p candidate_configs 0%nat ;;
  chosen_config <- select_config h this T WeightType p candidate_configs ;;
  dispatch_to_arch dev this T WeightType tag p chosen_config None.

(** *** [MoeGemmRunner::moe_gemm_bias_act], lines 399-429 *)
Definition moe_gemm_bias_act (h : Heuristic) (dev : Device)
  (this : MoeGemmRunner) (T WeightType : ElementType) (p : GemmProblem)
  (activation_type : ActivationType) : M State unit :=
  match activation_type with
  | Relu => run_gemm h dev this T WeightType EpilogueOpBiasReLU p
  | Gelu => run_gemm h dev this T WeightType EpilogueOpBiasFtGelu p
  | Silu => run_gemm h dev this T WeightType EpilogueOpBiasSilu p
  | Identity => run_gemm h dev this T WeightType EpilogueOpBias p
  | InvalidType => ORT_THROW InvalidActivation
  | ActivationOther => ORT_THROW InvalidActivation
  end.

(** *** [MoeGemmRunner::moe_gemm], lines 431-437: no bias operand. *)
Definition moe_gemm (h : Heuristic) (dev : Device) (this : MoeGemmRunner)
  (T WeightType : ElementType) (p : GemmProblem) : M State unit :=
  run_gemm h dev this T WeightType EpilogueOpNoBias
    {| gp_A := gp_A p; gp_B := gp_B p; gp_weight_scales := gp_weight_scales p;
       gp_biases := nullptr; gp_C := gp_C p;
       gp_total_rows_before_expert := gp_total_rows_before_expert p;
       gp_total_rows := gp_total_rows p; gp_gemm_n := gp_gemm_n p;
       gp_gemm_k := gp_gemm_k p; gp_num_experts := gp_num_experts p;
       gp_stream := gp_stream p |}.

End Engine.

Arguments Device : clear implicits.
Arguments State : clear implicits.

(** ** Which kernel a configuration resolves to

    The dispatch tower read as a function: the template instantiation of
    the launcher that a call reaches, or the exception thrown on the way.
    [dispatch_to_arch_resolves] below proves that the tower computes it. *)

Definition resolve_arch (sm : Z) : Result Arch :=
  if (70 <=? sm) && (sm <? 75) then Ok Sm70
  else if (75 <=? sm) && (sm <? 80) then Ok Sm75
  else if (80 <=? sm) && (sm <? 90) then Ok Sm80
  else Throw ArchUnsupported.

Definition resolve_shapes (path : DispatchPath) (t : CutlassTileConfig)
  : Result (GemmShape * GemmShape) :=
  match t, path with
  | Undefined, _ => Throw (ConfigUndefined path)
  | ChooseWithHeuristic, _ => Throw (ConfigNotSetByHeuristic path)
  | CtaShape32x128x64_WarpShape32x32x64, (SameTypeTensorop | MixedTypeTensorop) =>
      Ok (Shape 32 128 64, Shape 32 32 64)
  | CtaShape64x128x64_WarpShape32x64x64, SameTypeTensorop =>
      Ok (Shape 64 128 64, Shape 32 64 64)
  | CtaShape128x128x64_WarpShape64x32x64, SameTypeTensorop =>
      Ok (Shape 128 128 64, Shape 64 32 64)
  | CtaShape64x128x64_WarpShape64x32x64, MixedTypeTensorop =>
      Ok (Shape 64 128 64, Shape 64 32 64)
  | CtaShape128x128x64_WarpShape128x32x64, MixedTypeTensorop =>
      Ok (Shape 128 128 64, Shape 128 32 64)
  | CtaShape128x128x8_WarpShape64x64x8, Simt =>
      Ok (Shape 128 128 8, Shape 64 64 8)
  | _, _ => Throw (ConfigInvalidForPath path)
  end.

Definition resolve_stages (arch : Arch) (st : Z) : Result Z :=
  if st =? 2 then Ok 2
  else if (st =? 3) || (st =? 4) then
    match arch with
    | Sm80 => Ok st
    | _ => Throw (StagesNotInstantiated (kMinComputeCapability arch) st)
    end
  else Throw (StagesNotSupported st).

Definition resolve_kernel (sm : Z) (T WeightType : ElementType)
  (tag : EpilogueTag) (gemm_config : CutlassGemmConfig) : Result Kernel :=
  match resolve_arch sm with
  | Throw e => Throw e
  | Ok arch =>
      match resolve_shapes (dispatch_path T WeightType) (tile_config gemm_config) with
      | Throw e => Throw e
      | Ok (tb, warp) =>
          match resolve_stages arch (stages gemm_config) with
          | Throw e => Throw e
          | Ok st =>
              Ok {| kT := T; kWeightType := WeightType; karch := arch;
                    kEpilogueTag := tag; kThreadblockShape := tb;
                    kWarpShape := warp; kStages := st |}
          end
      end
  end.

(** The launcher at the instantiation [k]. *)
Definition launch_kernel {Mem : Type} (dev : Device Mem) (k : Kernel)
  (p : GemmProblem) (gemm_config : CutlassGemmConfig)
  (multi_processor_count : Z) (kernel_occupancy : option nat)
  : M (State Mem) unit :=
  generic_moe_gemm_kernelLauncher dev (kT k) (kWeightType k) (karch k)
    (kEpilogueTag k) (kThreadblockShape k) (kWarpShape k) (kStages k)
    p gemm_config multi_processor_count kernel_occupancy.

(** ** Concrete collaborators for the examples *)

(** Modelled from the spec: the Configuration Catalog
    ([get_candidate_configs] of [cutlass_heuristic.h], which is not part of
    this file).  Per tier and precision path it returns a finite ordered
    list; the simt-only path has one tile family and depth 2 only; depth 2
    is always offered and depths above 2 only on the top tier. *)
Definition catalog_tiles (is_weight_only only_simt_configs : bool)
  : list CutlassTileConfig :=
  if only_simt_configs then [CtaShape128x128x8_WarpShape64x64x8]
  else if is_weight_only then
    [CtaShape32x128x64_WarpShape32x32x64;
     CtaShape64x128x64_WarpShape64x32x64;
     CtaShape128x128x64_WarpShape128x32x64]
  else
    [CtaShape32x128x64_WarpShape32x32x64;
     CtaShape64x128x64_WarpShape32x64x64;
     CtaShape128x128x64_WarpShape64x32x64].

Definition catalog_stages (sm : Z) (only_simt_configs : bool) : list Z :=
  if only_simt_configs then [2]
  else if 80 <=? sm then [2; 3; 4]
  else [2].

Definition catalog (sm : Z) (is_weight_only only_simt_configs : bool)
  : list CutlassGemmConfig :=
  flat_map
    (fun t =>
       map (fun st =>
              {| tile_config := t; split_k_style := NO_SPLIT_K;
                 split_k_factor := 1; stages := st |})
           (catalog_stages sm only_simt_configs))
    (catalog_tiles is_weight_only only_simt_configs).

(** Modelled from the spec: the Heuristic Selector
    ([estimate_best_config_from_occupancies] of [cutlass_heuristic.h], which
    is not part of this file).  Candidates of occupancy zero are excluded,
    a larger occupancy wins, the earlier candidate wins a tie, and it is
    fatal when no candidate is left. *)
Fixpoint best_by_occupancy (candidate_configs : list CutlassGemmConfig)
  (occs : list Z) (best : option (CutlassGemmConfig * Z))
  : option (CutlassGemmConfig * Z) :=
  match candidate_configs, occs with
  | c :: cs, o :: os =>
      best_by_occupancy cs os
        (if o =? 0 then best
         else match best with
              | None => Some (c, o)
              | Some (_, bo) => if bo <? o then Some (c, o) else best
              end)
  | _, _ => best
  end.

Definition select_by_occupancy (candidate_configs : list CutlassGemmConfig)
  (occs : list Z) (m n k num_experts split_k_lim workspace mp : Z)
  (is_weight_only : bool) : Result CutlassGemmConfig :=
  match best_by_occupancy candidate_configs occs None with
  | Some (c, _) => Ok c
  | None => Throw (HeuristicFailed "Heuristic failed to find a valid config.")
  end.

Definition occupancy_heuristic : Heuristic :=
  {| get_candidate_configs := catalog;
     estimate_best_config_from_occupancies := select_by_occupancy |}.

(** A device with 108 multiprocessors on which every kernel fits: deeper
    pipelines leave room for one resident block, depth 2 for two.  Its
    memory is the list of output buffers that kernels have written. *)
Definition roomy_device : Device (list ptr) :=
  {| cudaDevAttrMultiProcessorCount := 108;
     compute_occupancy_for_kernel := fun k => if kStages k <=? 2 then 2 else 1;
     maximum_active_blocks := fun k => if kStages k <=? 2 then 2 else 1;
     gemm_can_implement := fun _ _ => kSuccess;
     gemm_initialize := fun _ _ => kSuccess;
     gemm_run := fun _ args _ mem => (kSuccess, arg_C args :: mem) |}.

(** A device on which no kernel fits. *)
Definition starved_device : Device (list ptr) :=
  {| cudaDevAttrMultiProcessorCount := 108;
     compute_occupancy_for_kernel := fun _ => 0;
     maximum_active_blocks := fun _ => 0;
     gemm_can_implement := fun _ _ => kSuccess;
     gemm_initialize := fun _ _ => kSuccess;
     gemm_run := fun _ args _ mem => (kSuccess, arg_C args :: mem) |}.

(** Eight experts over 1024 rows, output width 4096, reduction depth
    1024. *)
Definition sample_problem : GemmProblem :=
  {| gp_A := 4096; gp_B := 8192; gp_weight_scales := nullptr;
     gp_biases := 12288; gp_C := 16384;
     gp_total_rows_before_expert := 20480;
     gp_total_rows := 1024; gp_gemm_n := 4096; gp_gemm_k := 1024;
     gp_num_experts := 8; gp_stream := 1 |}.

(** The same call with an empty expert set. *)
Definition no_expert_problem : GemmProblem :=
  {| gp_A := 4096; gp_B := 8192; gp_weight_scales := nullptr;
     gp_biases := 12288; gp_C := 16384;
     gp_total_rows_before_expert := 20480;
     gp_total_rows := 1024; gp_gemm_n := 4096; gp_gemm_k := 1024;
     gp_num_experts := 0; gp_stream := 1 |}.

Definition sample_config (t : CutlassTileConfig) (st : Z) : CutlassGemmConfig :=
  {| tile_config := t; split_k_style := NO_SPLIT_K; split_k_factor := 1;
     stages := st |}.

Definition split_k_config : CutlassGemmConfig :=
  {| tile_config := CtaShape32x128x64_WarpShape32x32x64;
     split_k_style := SplitKOther; split_k_factor := 2; stages := 2 |}.

Definition ampere_runner : MoeGemmRunner := initialize roomy_device 80.
Definition turing_runner : MoeGemmRunner := initialize roomy_device 75.
Definition pascal_runner : MoeGemmRunner := initialize roomy_device 60.

Definition fresh_state : State (list ptr) :=
  {| occupancies := []; device_mem := []; trace := [] |}.

(** ** Vocabulary of the statements *)

(** Candidate [c] is one the probing pass gets through: it resolves to the
    kernel [k] and does not request split-k. *)
Definition probed (sm : Z) (T WeightType : ElementType) (tag : EpilogueTag)
  (c : CutlassGemmConfig) (k : Kernel) : Prop :=
  resolve_kernel sm T WeightType tag c = Ok k /\ split_k_style c = NO_SPLIT_K.

(** Modelled from the spec: the contract of the Heuristic Selector
    ([estimate_best_config_from_occupancies] of [cutlass_heuristic.h], which
    is not part of this file).  Given the candidate list with each
    candidate's occupancy it chooses exactly one configuration: the one it
    returns is one of the candidates it was given. *)
Definition selects_from_candidates (h : Heuristic) : Prop :=
  forall candidate_configs occs m n k num_experts split_k_lim workspace mp
         is_weight_only chosen_config,
    estimate_best_config_from_occupancies h candidate_configs occs m n k
      num_experts split_k_lim workspace mp is_weight_only
    = Ok chosen_config ->
    In chosen_config candidate_configs.

(** The arguments the launcher builds for kernel [k], lines 121-133. *)
Definition launch_arguments {Mem : Type} (dev : Device Mem) (k : Kernel)
  (p : GemmProblem) (multi_processor_count : Z) : Arguments :=
  GemmGrouped_Arguments p
    (int_mul multi_processor_count (Z.min 2 (maximum_active_blocks dev k))).

(** The calls a launch that goes through makes, in order. *)
Definition launch_events {Mem : Type} (dev : Device Mem) (k : Kernel)
  (p : GemmProblem) (multi_processor_count : Z) : list Event :=
  let args := launch_arguments dev k p multi_processor_count in
  [EvMaximumActiveBlocks k; EvCanImplement k args; EvInitialize k args;
   EvRun k args (gp_stream p)].

(** The state in which [run_gemm] starts probing [n] candidates. *)
Definition probing_state {Mem : Type} (n : nat) (s : State Mem) : State Mem :=
  {| occupancies := replicate n 0;
     device_mem := device_mem s;
     trace := trace s |}.

(** ** Sample calls *)

Definition sample_tile : CutlassTileConfig := CtaShape32x128x64_WarpShape32x32x64.

Definition sample_kernel : Kernel :=
  {| kT := half; kWeightType := half; karch := Sm80;
     kEpilogueTag := EpilogueOpBiasReLU;
     kThreadblockShape := Shape 32 128 64; kWarpShape := Shape 32 32 64;
     kStages := 2 |}.

(** The sample problem on other buffers and another stream. *)
Definition moved_problem : GemmProblem :=
  {| gp_A := 65536; gp_B := 69632; gp_weight_scales := nullptr;
     gp_biases := nullptr; gp_C := 73728;
     gp_total_rows_before_expert := 77824;
     gp_total_rows := 1024; gp_gemm_n := 4096; gp_gemm_k := 1024;
     gp_num_experts := 8; gp_stream := 2 |}.

(** A state in which an earlier kernel has already run. *)
Definition busy_state : State (list ptr) :=
  {| occupancies := [5];
     device_mem := [16384];
     trace := [EvRun sample_kernel (GemmGrouped_Arguments sample_problem 216) 1] |}.

(** The sample call end to end. *)
Definition sample_run : Result unit * State (list ptr) :=
  run_gemm occupancy_heuristic roomy_device ampere_runner half half
    EpilogueOpBiasReLU sample_problem fresh_state.

(** A catalog that offers a three-stage configuration between two
    two-stage ones, whatever the architecture. *)
Definition deep_pipeline_heuristic : Heuristic :=
  {| get_candidate_configs := fun _ _ _ =>
       [sample_config sample_tile 2;
        sample_config sample_tile 3;
        sample_config CtaShape64x128x64_WarpShape32x64x64 2];
     estimate_best_config_from_occupancies := select_by_occupancy |}.

(** The sample kernel as instantiated on an [sm_] of 75. *)
Definition turing_kernel : Kernel :=
  {| kT := half; kWeightType := half; karch := Sm75;
     kEpilogueTag := EpilogueOpBiasReLU;
     kThreadblockShape := Shape 32 128 64; kWarpShape := Shape 32 32 64;
     kStages := 2 |}.

(** ** Vocabulary for the device calls *)

(** The kernel a device call is about, and the argument block it carries. *)
Definition event_kernel (e : Event) : Kernel :=
  match e with
  | EvComputeOccupancy k | EvMaximumActiveBlocks k => k
  | EvCanImplement k _ | EvInitialize k _ | EvRun k _ _ => k
  end.

Definition event_arguments (e : Event) : option Arguments :=
  match e with
  | EvComputeOccupancy _ | EvMaximumActiveBlocks _ => None
  | EvCanImplement _ args | EvInitialize _ args | EvRun _ args _ => Some args
  end.

(** The tile tags for which an overload of [dispatch_moe_gemm_to_cutlass]
    has a [case] that goes on to [dispatch_gemm_config]. *)
Definition accepted_tiles (path : DispatchPath) : list CutlassTileConfig :=
  match path with
  | SameTypeTensorop =>
      [CtaShape32x128x64_WarpShape32x32x64;
       CtaShape64x128x64_WarpShape32x64x64;
       CtaShape128x128x64_WarpShape64x32x64]
  | MixedTypeTensorop =>
      [CtaShape32x128x64_WarpShape32x32x64;
       CtaShape64x128x64_WarpShape64x32x64;
       CtaShape128x128x64_WarpShape128x32x64]
  | Simt => [CtaShape128x128x8_WarpShape64x64x8]
  end.

(** A device call made on behalf of a runner of element types [T] and
    [WeightType] with stored capability [sm] and multiprocessor count [mp],
    for epilogue [tag] and operands [p]: the kernel is instantiated for
    these, and an argument block is the one the launcher builds from [p]. *)
Definition call_on_behalf_of {Mem : Type} (dev : Device Mem)
  (T WeightType : ElementType) (tag : EpilogueTag) (sm : Z) (p : GemmProblem)
  (mp : Z) (e : Event) : Prop :=
  kT (event_kernel e) = T
  /\ kWeightType (event_kernel e) = WeightType
  /\ kEpilogueTag (event_kernel e) = tag
  /\ resolve_arch sm = Ok (karch (event_kernel e))
  /\ forall args,
       event_arguments e = Some args ->
       args = launch_arguments dev (event_kernel e) p mp.

(** [gp_biases := nullptr], as [moe_gemm] passes the operands on. *)
Definition without_biases (p : GemmProblem) : GemmProblem :=
  {| gp_A := gp_A p; gp_B := gp_B p; gp_weight_scales := gp_weight_scales p;
     gp_biases := nullptr; gp_C := gp_C p;
     gp_total_rows_before_expert := gp_total_rows_before_expert p;
     gp_total_rows := gp_total_rows p; gp_gemm_n := gp_gemm_n p;
     gp_gemm_k := gp_gemm_k p; gp_num_experts := gp_num_experts p;
     gp_stream := gp_stream p |}.

(** ** More sample devices and calls *)

(** A device whose occupancy query for the launch fails: CUTLASS reports
    that as [-1]. *)
Definition erroring_device : Device (list ptr) :=
  {| cudaDevAttrMultiProcessorCount := 108;
     compute_occupancy_for_kernel := fun _ => 2;
     maximum_active_blocks := fun _ => -1;
     gemm_can_implement := fun _ _ => kSuccess;
     gemm_initialize := fun _ _ => kSuccess;
     gemm_run := fun _ args _ mem => (kSuccess, arg_C args :: mem) |}.

Definition hopper_runner : MoeGemmRunner := initialize roomy_device 90.

Definition simt_config : CutlassGemmConfig :=
  sample_config CtaShape128x128x8_WarpShape64x64x8 2.

(** Probes and launches of the samples. *)
Definition turing_probe : Result unit * State (list ptr) :=
  dispatch_to_arch roomy_device turing_runner half half EpilogueOpBiasReLU
    sample_problem (sample_config sample_tile 2) (Some 0%nat)
    (probing_state 3 fresh_state).

Definition float_probe : Result unit * State (list ptr) :=
  dispatch_to_arch roomy_device ampere_runner float float EpilogueOpBiasReLU
    sample_problem simt_config (Some 0%nat) (probing_state 1 fresh_state).

Definition starved_probe : Result unit * State (list ptr) :=
  dispatch_to_arch starved_device ampere_runner half half EpilogueOpBiasReLU
    sample_problem (sample_config sample_tile 2) (Some 0%nat)
    (probing_state 1 fresh_state).

Definition starved_launch : Result unit * State (list ptr) :=
  dispatch_to_arch starved_device ampere_runner half half EpilogueOpBiasReLU
    sample_problem (sample_config sample_tile 2) None busy_state.

Definition sample_launch : Result unit * State (list ptr) :=
  generic_moe_gemm_kernelLauncher roomy_device half half Sm80
    EpilogueOpBiasReLU (Shape 32 128 64) (Shape 32 32 64) 2 sample_problem
    (sample_config sample_tile 2) 108 None fresh_state.

Definition sample_activation_run : Result unit * State (list ptr) :=
  moe_gemm_bias_act occupancy_heuristic roomy_device ampere_runner half half
    sample_problem Silu busy_state.

Definition sample_no_bias_run : Result unit * State (list ptr) :=
  moe_gemm occupancy_heuristic roomy_device ampere_runner half half
    sample_problem busy_state.

Definition hopper_run : Result unit * State (list ptr) :=
  run_gemm occupancy_heuristic roomy_device (initialize roomy_device 90)
    half half EpilogueOpBiasReLU sample_problem busy_state.

(** * Properties *)

Section Dispatch.

Context {Mem : Type}.
Implicit Types (dev : Device Mem) (s : State Mem) (this : MoeGemmRunner).
Implicit Types (T WeightType : ElementType) (arch : Arch) (tag : EpilogueTag).
Implicit Types (p : GemmProblem) (gemm_config : CutlassGemmConfig).
Implicit Types (occupancy : option nat) (k : Kernel).

(** *** The monad *)

Lemma bind_ok {A B : Type} (m : M (State Mem) A) (f : A -> M (State Mem) B)
  s a s' :
  m s = (Ok a, s') -> bind m f s = f a s'.
Proof. intros H. unfold bind. now rewrite H. Qed.

Lemma bind_throw {A B : Type} (m : M (State Mem) A) (f : A -> M (State Mem) B)
  s e s' :
  m s = (Throw e, s') -> bind m f s = (Throw e, s').
Proof. intros H. unfold bind. now rewrite H. Qed.

Lemma bind_inv_ok {A B : Type} (m : M (State Mem) A)
  (f : A -> M (State Mem) B) s b s' :
  bind m f s = (Ok b, s') ->
  exists a s1, m s = (Ok a, s1) /\ f a s1 = (Ok b, s').
Proof.
  unfold bind. destruct (m s) as [[a | e] s1]; intros H.
  - now exists a, s1.
  - discriminate.
Qed.

(** *** The stage switch *)

Lemma dispatch_gemm_config_resolves dev T WeightType arch tag tb warp p
  gemm_config mp occupancy :
  dispatch_gemm_config dev T WeightType arch tag tb warp p gemm_config mp
    occupancy
  = match resolve_stages arch (stages gemm_config) with
    | Ok st =>
        generic_moe_gemm_kernelLauncher dev T WeightType arch tag tb warp st
          p gemm_config mp occupancy
    | Throw e => ORT_THROW e
    end.
Proof.
  unfold dispatch_gemm_config, resolve_stages.
  destruct (stages gemm_config) as [| q | q]; try reflexivity.
  destruct q as [[[q | q |] | [q | q |] |] | [[q | q |] | [q | q |] |] |];
    try reflexivity; destruct arch; reflexivity.
Qed.

(** *** The tile switch *)

Lemma dispatch_moe_gemm_to_cutlass_resolves dev T WeightType arch tag p
  gemm_config sm mp occupancy :
  dispatch_moe_gemm_to_cutlass dev T WeightType arch tag p gemm_config sm mp
    occupancy
  = match resolve_shapes (dispatch_path T WeightType) (tile_config gemm_config) with
    | Ok (tb, warp) =>
        dispatch_gemm_config dev T WeightType arch tag tb warp p gemm_config
          mp occupancy
    | Throw e => ORT_THROW e
    end.
Proof.
  unfold dispatch_moe_gemm_to_cutlass, dispatch_moe_gemm_to_cutlass_same_type,
    dispatch_moe_gemm_to_cutlass_mixed_type, dispatch_moe_gemm_to_cutlass_simt,
    resolve_shapes.
  destruct (dispatch_path T WeightType), (tile_config gemm_config); reflexivity.
Qed.

(** *** The whole tower *)

Lemma dispatch_to_arch_resolves dev this T WeightType tag p gemm_config
  occupancy :
  dispatch_to_arch dev this T WeightType tag p gemm_config occupancy
  = match resolve_kernel (sm_ this) T WeightType tag gemm_config with
    | Ok k =>
        launch_kernel dev k p gemm_config (multi_processor_count_ this)
          occupancy
    | Throw e => ORT_THROW e
    end.
Proof.
  unfold dispatch_to_arch, resolve_kernel, resolve_arch, launch_kernel.
  repeat (match goal with |- context [if ?b then _ else _] =>
            destruct b end;
          [ rewrite dispatch_moe_gemm_to_cutlass_resolves;
            destruct (resolve_shapes _ _) as [[tb warp] | e]; [| reflexivity];
            rewrite dispatch_gemm_config_resolves;
            destruct (resolve_stages _ _) as [st | e]; reflexivity
          | ]).
  reflexivity.
Qed.

(** *** Facts about the resolution functions *)

Lemma resolve_arch_Sm70 sm : 70 <= sm < 75 -> resolve_arch sm = Ok Sm70.
Proof.
  intros H. unfold resolve_arch.
  destruct (Z.leb_spec 70 sm); [| lia]. destruct (Z.ltb_spec sm 75); [| lia].
  reflexivity.
Qed.

Lemma resolve_arch_Sm75 sm : 75 <= sm < 80 -> resolve_arch sm = Ok Sm75.
Proof.
  intros H. unfold resolve_arch.
  destruct (Z.ltb_spec sm 75); [lia |]. rewrite andb_false_r.
  destruct (Z.leb_spec 75 sm); [| lia]. destruct (Z.ltb_spec sm 80); [| lia].
  reflexivity.
Qed.

Lemma resolve_arch_Sm80 sm : 80 <= sm < 90 -> resolve_arch sm = Ok Sm80.
Proof.
  intros H. unfold resolve_arch.
  destruct (Z.ltb_spec sm 75); [lia |]. rewrite andb_false_r.
  destruct (Z.ltb_spec sm 80); [lia |]. rewrite andb_false_r.
  destruct (Z.leb_spec 80 sm); [| lia]. destruct (Z.ltb_spec sm 90); [| lia].
  reflexivity.
Qed.

Lemma resolve_arch_unsupported sm :
  ~ (70 <= sm < 90) -> resolve_arch sm = Throw ArchUnsupported.
Proof.
  intros H. unfold resolve_arch.
  destruct (Z.leb_spec 70 sm), (Z.ltb_spec sm 75), (Z.leb_spec 75 sm),
    (Z.ltb_spec sm 80), (Z.leb_spec 80 sm), (Z.ltb_spec sm 90);
    simpl; try reflexivity; lia.
Qed.

Lemma resolve_arch_band sm arch :
  resolve_arch sm = Ok arch ->
  70 <= sm < 90 /\ (arch = Sm80 <-> 80 <= sm).
Proof.
  unfold resolve_arch.
  destruct (Z.leb_spec 70 sm), (Z.ltb_spec sm 75), (Z.leb_spec 75 sm),
    (Z.ltb_spec sm 80), (Z.leb_spec 80 sm), (Z.ltb_spec sm 90);
    simpl; intros [= <-]; (split; [lia | split; [discriminate || lia | lia || reflexivity]]).
Qed.

Lemma resolve_arch_supported sm :
  70 <= sm < 90 -> exists arch, resolve_arch sm = Ok arch.
Proof.
  intros H.
  destruct (Z.lt_ge_cases sm 75); [| destruct (Z.lt_ge_cases sm 80)].
  - exists Sm70. apply resolve_arch_Sm70. lia.
  - exists Sm75. apply resolve_arch_Sm75. lia.
  - exists Sm80. apply resolve_arch_Sm80. lia.
Qed.

Lemma resolve_stages_outside arch st :
  st <> 2 -> st <> 3 -> st <> 4 ->
  resolve_stages arch st = Throw (StagesNotSupported st).
Proof.
  intros H2 H3 H4. unfold resolve_stages.
  destruct (Z.eqb_spec st 2); [contradiction |].
  destruct (Z.eqb_spec st 3); [contradiction |].
  destruct (Z.eqb_spec st 4); [contradiction |].
  reflexivity.
Qed.

Lemma resolve_stages_lower_tier arch st :
  st = 3 \/ st = 4 -> arch <> Sm80 ->
  resolve_stages arch st
  = Throw (StagesNotInstantiated (kMinComputeCapability arch) st).
Proof.
  intros [-> | ->] Ha; destruct arch; try contradiction; reflexivity.
Qed.

Lemma resolve_stages_error_class arch st e :
  resolve_stages arch st = Throw e -> error_class e = ConfigurationError.
Proof.
  unfold resolve_stages.
  destruct (st =? 2); [discriminate |].
  destruct ((st =? 3) || (st =? 4)); [destruct arch |];
    intros [= <-]; reflexivity.
Qed.

Lemma resolve_shapes_error_class path t e :
  resolve_shapes path t = Throw e -> error_class e = ConfigurationError.
Proof. destruct path, t; simpl; intros [= <-]; reflexivity. Qed.

Lemma resolve_shapes_undefined path :
  resolve_shapes path Undefined = Throw (ConfigUndefined path).
Proof. destruct path; reflexivity. Qed.

Lemma resolve_shapes_placeholder path :
  resolve_shapes path ChooseWithHeuristic = Throw (ConfigNotSetByHeuristic path).
Proof. destruct path; reflexivity. Qed.

(** Every exception has a message. *)
Lemma what_nonempty e :
  match e with HeuristicFailed _ => True | _ => what e <> "" end.
Proof. destruct e as [| | | | | | | [] | [] | [] | | |]; simpl; try exact I; discriminate. Qed.

(** *** The launcher under a split-k request *)

Lemma launcher_rejects_split_k dev T WeightType arch tag tb warp st p
  gemm_config mp occupancy s :
  split_k_style gemm_config <> NO_SPLIT_K ->
  generic_moe_gemm_kernelLauncher dev T WeightType arch tag tb warp st p
    gemm_config mp occupancy s
  = (Throw SplitKNotSupported, s).
Proof.
  intros H. unfold generic_moe_gemm_kernelLauncher.
  destruct (split_k_style gemm_config); [contradiction | reflexivity].
Qed.

(** C2: [dispatch_to_arch] routes by the stored compute capability: [sm_]
    in [70,75) takes the [Sm70] path, [75,80) the [Sm75] path, [80,90) the
    [Sm80] path; for every other value the call throws the
    unsupported-architecture error in the state it was entered in, so no
    other path is taken and nothing is launched. *)
Theorem dispatch_to_arch_routes dev this T WeightType tag p gemm_config
  occupancy :
  (70 <= sm_ this < 75 ->
   dispatch_to_arch dev this T WeightType tag p gemm_config occupancy
   = dispatch_moe_gemm_to_cutlass dev T WeightType Sm70 tag p gemm_config
       (sm_ this) (multi_processor_count_ this) occupancy)
  /\ (75 <= sm_ this < 80 ->
      dispatch_to_arch dev this T WeightType tag p gemm_config occupancy
      = dispatch_moe_gemm_to_cutlass dev T WeightType Sm75 tag p gemm_config
          (sm_ this) (multi_processor_count_ this) occupancy)
  /\ (80 <= sm_ this < 90 ->
      dispatch_to_arch dev this T WeightType tag p gemm_config occupancy
      = dispatch_moe_gemm_to_cutlass dev T WeightType Sm80 tag p gemm_config
          (sm_ this) (multi_processor_count_ this) occupancy)
  /\ (~ (70 <= sm_ this < 90) ->
      forall s,
        dispatch_to_arch dev this T WeightType tag p gemm_config occupancy s
        = (Throw ArchUnsupported, s)).
Proof.
  unfold dispatch_to_arch.
  destruct (Z.leb_spec 70 (sm_ this)), (Z.ltb_spec (sm_ this) 75),
    (Z.leb_spec 75 (sm_ this)), (Z.ltb_spec (sm_ this) 80),
    (Z.leb_spec 80 (sm_ this)), (Z.ltb_spec (sm_ this) 90);
    simpl; repeat split; intros; try reflexivity; lia.
Qed.

(** C3: a stage count outside {2,3,4} makes [dispatch_gemm_config] throw
    its unsupported-stages error on every architecture, and stage counts 3
    and 4 make it throw the not-instantiated error on [Sm70] and [Sm75];
    through the whole dispatcher such a configuration ends in a
    configuration error.  In each case the state is the one the call was
    entered in: nothing was queried or launched. *)
Theorem dispatch_rejects_unsupported_stages dev T WeightType tag p gemm_config
  mp occupancy s :
  (stages gemm_config <> 2 -> stages gemm_config <> 3 ->
   stages gemm_config <> 4 ->
   forall arch tb warp,
     dispatch_gemm_config dev T WeightType arch tag tb warp p gemm_config mp
       occupancy s
     = (Throw (StagesNotSupported (stages gemm_config)), s))
  /\ (stages gemm_config = 3 \/ stages gemm_config = 4 ->
      forall arch tb warp,
        arch = Sm70 \/ arch = Sm75 ->
        dispatch_gemm_config dev T WeightType arch tag tb warp p gemm_config mp
          occupancy s
        = (Throw (StagesNotInstantiated (kMinComputeCapability arch)
                    (stages gemm_config)), s))
  /\ (forall this,
        70 <= sm_ this < 90 ->
        (stages gemm_config <> 2 /\ stages gemm_config <> 3
         /\ stages gemm_config <> 4)
        \/ ((stages gemm_config = 3 \/ stages gemm_config = 4)
            /\ sm_ this < 80) ->
        exists e,
          dispatch_to_arch dev this T WeightType tag p gemm_config occupancy s
          = (Throw e, s)
          /\ error_class e = ConfigurationError).
Proof.
  split; [| split].
  - intros H2 H3 H4 arch tb warp.
    rewrite dispatch_gemm_config_resolves, resolve_stages_outside by assumption.
    reflexivity.
  - intros H34 arch tb warp Harch.
    rewrite dispatch_gemm_config_resolves, resolve_stages_lower_tier;
      [reflexivity | assumption | destruct Harch; subst; discriminate].
  - intros this Hsm Hst.
    rewrite dispatch_to_arch_resolves. unfold resolve_kernel.
    destruct (resolve_arch_supported _ Hsm) as [arch Ha]. rewrite Ha.
    destruct (resolve_shapes _ _) as [[tb warp] | e] eqn:Hs.
    2:{ exists e. split; [reflexivity |].
        eapply resolve_shapes_error_class; eassumption. }
    assert (exists e, resolve_stages arch (stages gemm_config) = Throw e)
      as [e He].
    { destruct Hst as [(H2 & H3 & H4) | [H34 Hlow]].
      - eexists. apply resolve_stages_outside; assumption.
      - eexists. apply resolve_stages_lower_tier; [assumption |].
        intros ->. apply resolve_arch_band in Ha.
        destruct Ha as [_ [Ha _]]. specialize (Ha eq_refl). lia. }
    rewrite He. exists e. split; [reflexivity |].
    eapply resolve_stages_error_class; eassumption.
Qed.

Lemma resolve_arch_error sm e : resolve_arch sm = Throw e -> e = ArchUnsupported.
Proof.
  unfold resolve_arch.
  repeat (match goal with |- context [if ?b then _ else _] => destruct b end;
          [discriminate |]).
  now intros [= <-].
Qed.

Lemma dispatch_error_has_message e :
  error_class e = ConfigurationError \/ e = ArchUnsupported -> what e <> "".
Proof.
  intros H. pose proof (what_nonempty e) as Hw.
  destruct e; try exact Hw. destruct H; discriminate.
Qed.

(** C4: [moe_gemm_bias_act] runs the GEMM with the bias-plus-activation
    epilogue that belongs to the tag (ReLU, GELU, SiLU, identity), and for
    the invalid tag it throws in the state it was entered in: nothing was
    dispatched, probed or launched, and the identity epilogue was not
    substituted. *)
Theorem moe_gemm_bias_act_epilogue h dev this T WeightType p :
  moe_gemm_bias_act h dev this T WeightType p Relu
  = run_gemm h dev this T WeightType EpilogueOpBiasReLU p
  /\ moe_gemm_bias_act h dev this T WeightType p Gelu
     = run_gemm h dev this T WeightType EpilogueOpBiasFtGelu p
  /\ moe_gemm_bias_act h dev this T WeightType p Silu
     = run_gemm h dev this T WeightType EpilogueOpBiasSilu p
  /\ moe_gemm_bias_act h dev this T WeightType p Identity
     = run_gemm h dev this T WeightType EpilogueOpBias p
  /\ (forall s,
        moe_gemm_bias_act h dev this T WeightType p InvalidType s
        = (Throw InvalidActivation, s))
  /\ what InvalidActivation
     = "[FT Error][MoE Runner] Invalid activation type for MoE GEMM".
Proof. repeat split. Qed.

(** C5: a configuration that requests split-k, or whose tile tag is
    [Undefined] or [ChooseWithHeuristic], makes the dispatch throw at once:
    the exception carries a message, and the state is the one the call was
    entered in, so nothing was queried, retried or launched.  The launcher
    itself throws the split-k error, and the tile switch the undefined or
    not-set-by-heuristic error of its path. *)
Theorem dispatch_rejects_split_k_and_placeholder_tiles dev this T WeightType
  tag p gemm_config occupancy s :
  split_k_style gemm_config <> NO_SPLIT_K
  \/ tile_config gemm_config = Undefined
  \/ tile_config gemm_config = ChooseWithHeuristic ->
  (exists e,
     dispatch_to_arch dev this T WeightType tag p gemm_config occupancy s
     = (Throw e, s)
     /\ (error_class e = ConfigurationError \/ e = ArchUnsupported)
     /\ what e <> "")
  /\ (split_k_style gemm_config <> NO_SPLIT_K ->
      forall arch tb warp st mp,
        generic_moe_gemm_kernelLauncher dev T WeightType arch tag tb warp st p
          gemm_config mp occupancy s
        = (Throw SplitKNotSupported, s))
  /\ (tile_config gemm_config = Undefined ->
      forall arch sm mp,
        dispatch_moe_gemm_to_cutlass dev T WeightType arch tag p gemm_config
          sm mp occupancy s
        = (Throw (ConfigUndefined (dispatch_path T WeightType)), s))
  /\ (tile_config gemm_config = ChooseWithHeuristic ->
      forall arch sm mp,
        dispatch_moe_gemm_to_cutlass dev T WeightType arch tag p gemm_config
          sm mp occupancy s
        = (Throw (ConfigNotSetByHeuristic (dispatch_path T WeightType)), s)).
Proof.
  intros Hbad. split; [| split; [| split]].
  - assert (exists e,
              dispatch_to_arch dev this T WeightType tag p gemm_config
                occupancy s = (Throw e, s)
              /\ (error_class e = ConfigurationError \/ e = ArchUnsupported))
      as (e & He & Hc).
    { rewrite dispatch_to_arch_resolves. unfold resolve_kernel.
      destruct (resolve_arch (sm_ this)) as [arch | e] eqn:Ha.
      2:{ exists e. split; [reflexivity |]. right.
          eapply resolve_arch_error; eassumption. }
      destruct (resolve_shapes _ _) as [[tb warp] | e] eqn:Hs.
      2:{ exists e. split; [reflexivity |]. left.
          eapply resolve_shapes_error_class; eassumption. }
      destruct (resolve_stages _ _) as [st | e] eqn:Hst.
      2:{ exists e. split; [reflexivity |]. left.
          eapply resolve_stages_error_class; eassumption. }
      destruct Hbad as [Hk | [Ht | Ht]].
      - exists SplitKNotSupported. split; [| now left].
        unfold launch_kernel. now apply launcher_rejects_split_k.
      - rewrite Ht, resolve_shapes_undefined in Hs. discriminate.
      - rewrite Ht, resolve_shapes_placeholder in Hs. discriminate. }
    exists e. repeat split; try assumption.
    now apply dispatch_error_has_message.
  - intros Hk arch tb warp st mp. now apply launcher_rejects_split_k.
  - intros Ht arch sm mp.
    now rewrite dispatch_moe_gemm_to_cutlass_resolves, Ht,
      resolve_shapes_undefined.
  - intros Ht arch sm mp.
    now rewrite dispatch_moe_gemm_to_cutlass_resolves, Ht,
      resolve_shapes_placeholder.
Qed.

(** *** The launcher *)

Lemma wrap_int_in_range z : in_int_range z -> wrap_int z = z.
Proof.
  unfold in_int_range, wrap_int. intros H.
  rewrite Z.mod_small; lia.
Qed.

(** C6: when the launcher launches, the threadblock count it passes is the
    multiprocessor count times [min 2 (maximum_active_blocks)] (the [int]
    product, which is the exact product whenever that fits an [int]); when
    that occupancy is zero it throws the shared-memory error right after
    the occupancy query, and no other kernel is tried. *)
Theorem launcher_threadblock_count dev T WeightType arch tag tb warp st p
  gemm_config mp s :
  split_k_style gemm_config = NO_SPLIT_K ->
  let k :=
    {| kT := T; kWeightType := WeightType; karch := arch; kEpilogueTag := tag;
       kThreadblockShape := tb; kWarpShape := warp; kStages := st |} in
  let occupancy := Z.min 2 (maximum_active_blocks dev k) in
  let args := GemmGrouped_Arguments p (int_mul mp occupancy) in
  (occupancy = 0 ->
   generic_moe_gemm_kernelLauncher dev T WeightType arch tag tb warp st p
     gemm_config mp None s
   = (Throw LacksSharedMemory, log (EvMaximumActiveBlocks k) s))
  /\ (occupancy <> 0 ->
      exists r s' rest,
        generic_moe_gemm_kernelLauncher dev T WeightType arch tag tb warp st p
          gemm_config mp None s
        = (r, s')
        /\ trace s'
           = trace s ++ EvMaximumActiveBlocks k :: EvCanImplement k args :: rest
        /\ (rest = [] \/ rest = [EvInitialize k args]
            \/ rest = [EvInitialize k args; EvRun k args (gp_stream p)])
        /\ (r = Ok tt ->
            rest = [EvInitialize k args; EvRun k args (gp_stream p)]))
  /\ arg_threadblock_count args = int_mul mp occupancy
  /\ (in_int_range (mp * occupancy) -> int_mul mp occupancy = mp * occupancy).
Proof.
  intros Hk k occ args. split; [| split; [| split]].
  - intros H0. unfold generic_moe_gemm_kernelLauncher.
    rewrite Hk. simpl. unfold bind, call_maximum_active_blocks.
    fold k. fold occ. rewrite H0. reflexivity.
  - intros Hn0. unfold generic_moe_gemm_kernelLauncher.
    rewrite Hk. simpl. unfold bind, call_maximum_active_blocks.
    fold k. fold occ. destruct (Z.eqb_spec occ 0) as [| _]; [contradiction |].
    fold args. unfold call_can_implement, call_initialize, call_run.
    destruct (gemm_can_implement dev k args).
    2:{ do 3 eexists. split; [reflexivity |]. simpl.
        split; [rewrite <- app_assoc; reflexivity |].
        split; [now left | discriminate]. }
    destruct (gemm_initialize dev k args).
    2:{ do 3 eexists. split; [reflexivity |]. simpl.
        split; [rewrite <- !app_assoc; reflexivity |].
        split; [right; now left | discriminate]. }
    simpl.
    destruct (gemm_run dev k args (gp_stream p) (device_mem s)) as [[| msg] mem'];
      do 3 eexists; (split; [reflexivity |]); simpl;
      (split; [rewrite <- !app_assoc; reflexivity |]);
      (split; [right; now right |]); [reflexivity | discriminate].
  - reflexivity.
  - intros Hr. unfold int_mul. now apply wrap_int_in_range.
Qed.

(** C8 (amended): for a configuration that does not request split-k, the
    launcher called with a non-null occupancy pointer queries the occupancy
    of its kernel, writes it through the pointer and returns: the trace
    grows by that one query (no feasibility check, no initialisation, no
    launch), device memory is unchanged, and all other occupancy cells are
    unchanged. *)
Theorem launcher_probe_only dev T WeightType arch tag tb warp st p
  gemm_config mp cell s :
  split_k_style gemm_config = NO_SPLIT_K ->
  let k :=
    {| kT := T; kWeightType := WeightType; karch := arch; kEpilogueTag := tag;
       kThreadblockShape := tb; kWarpShape := warp; kStages := st |} in
  exists s',
    generic_moe_gemm_kernelLauncher dev T WeightType arch tag tb warp st p
      gemm_config mp (Some cell) s
    = (Ok tt, s')
    /\ occupancies s'
       = <[cell := compute_occupancy_for_kernel dev k]> (occupancies s)
    /\ ((cell < length (occupancies s))%nat ->
        occupancies s' !! cell = Some (compute_occupancy_for_kernel dev k))
    /\ (forall j, j <> cell -> occupancies s' !! j = occupancies s !! j)
    /\ device_mem s' = device_mem s
    /\ trace s' = trace s ++ [EvComputeOccupancy k]
    /\ launches (trace s') = launches (trace s).
Proof.
  intros Hk k. unfold generic_moe_gemm_kernelLauncher. rewrite Hk. simpl.
  eexists. split; [reflexivity |]. simpl. repeat split.
  - intros Hlt. now apply list_lookup_insert_eq.
  - intros j Hj. apply list_lookup_insert_ne. congruence.
  - unfold launches. rewrite List.filter_app. simpl. now rewrite app_nil_r.
Qed.

(** *** Counting launches *)

Lemma launches_app (t1 t2 : list Event) :
  launches (t1 ++ t2) = (launches t1 + launches t2)%nat.
Proof. unfold launches. now rewrite List.filter_app, length_app. Qed.

Lemma launches_probes (ks : list Kernel) :
  launches (map EvComputeOccupancy ks) = 0%nat.
Proof. induction ks as [| k ks IH]; [reflexivity | exact IH]. Qed.

(** *** One probe *)

Lemma dispatch_to_arch_probe dev this T WeightType tag p gemm_config cell s :
  dispatch_to_arch dev this T WeightType tag p gemm_config (Some cell) s
  = match resolve_kernel (sm_ this) T WeightType tag gemm_config with
    | Throw e => (Throw e, s)
    | Ok k =>
        if is_no_split_k (split_k_style gemm_config) then
          (Ok tt,
           {| occupancies :=
                <[cell := compute_occupancy_for_kernel dev k]> (occupancies s);
              device_mem := device_mem s;
              trace := trace s ++ [EvComputeOccupancy k] |})
        else (Throw SplitKNotSupported, s)
    end.
Proof.
  rewrite dispatch_to_arch_resolves.
  destruct (resolve_kernel _ _ _ _ _) as [k | e]; [| reflexivity].
  destruct k. unfold launch_kernel, generic_moe_gemm_kernelLauncher. simpl.
  destruct (split_k_style gemm_config); reflexivity.
Qed.

(** *** The probing loop *)

Lemma probe_occupancies_frame dev this T WeightType tag p candidate_configs :
  forall ii s r s1,
    probe_occupancies dev this T WeightType tag p candidate_configs ii s
    = (r, s1) ->
    exists kernels,
      trace s1 = trace s ++ map EvComputeOccupancy kernels
      /\ device_mem s1 = device_mem s.
Proof.
  induction candidate_configs as [| c rest IH]; intros ii s r s1 H.
  - injection H as <- <-. exists []. now rewrite app_nil_r.
  - simpl in H. unfold bind in H. rewrite dispatch_to_arch_probe in H.
    destruct (resolve_kernel _ _ _ _ c) as [k | e].
    2:{ injection H as <- <-. exists []. now rewrite app_nil_r. }
    destruct (is_no_split_k (split_k_style c)).
    2:{ injection H as <- <-. exists []. now rewrite app_nil_r. }
    apply IH in H as (ks & Ht & Hm). simpl in Ht, Hm.
    exists (k :: ks). split; [| exact Hm].
    rewrite Ht, <- app_assoc. reflexivity.
Qed.

Lemma probe_occupancies_ok dev this T WeightType tag p candidate_configs :
  forall ii s s1 done todo,
    probe_occupancies dev this T WeightType tag p candidate_configs ii s
    = (Ok tt, s1) ->
    occupancies s = done ++ todo ->
    length done = ii ->
    length todo = length candidate_configs ->
    exists kernels,
      Forall2 (probed (sm_ this) T WeightType tag) candidate_configs kernels
      /\ occupancies s1
         = done ++ map (compute_occupancy_for_kernel dev) kernels
      /\ trace s1 = trace s ++ map EvComputeOccupancy kernels
      /\ device_mem s1 = device_mem s.
Proof.
  induction candidate_configs as [| c rest IH];
    intros ii s s1 done todo H Hocc Hdone Htodo.
  - injection H as <-. destruct todo; [| discriminate].
    exists []. rewrite !app_nil_r in *. repeat split; [constructor | exact Hocc].
  - destruct todo as [| o todo]; [discriminate |].
    simpl in H. unfold bind in H. rewrite dispatch_to_arch_probe in H.
    destruct (resolve_kernel _ _ _ _ c) as [k | e] eqn:Hres; [| discriminate].
    destruct (split_k_style c) eqn:Hsplit; [| discriminate]. simpl in H.
    apply (IH _ _ _ (done ++ [compute_occupancy_for_kernel dev k]) todo)
      in H as (ks & Hall & Ho & Ht & Hm).
    + exists (k :: ks). simpl in Ht, Hm. repeat split.
      * constructor; [now split | exact Hall].
      * rewrite Ho, <- app_assoc. reflexivity.
      * rewrite Ht, <- app_assoc. reflexivity.
      * exact Hm.
    + simpl. rewrite Hocc, <- Hdone.
      replace (length done) with (length done + 0)%nat by lia.
      rewrite insert_app_r, <- app_assoc. reflexivity.
    + rewrite length_app. simpl. lia.
    + simpl in Htodo. lia.
Qed.

(** *** A launch *)

Lemma launch_kernel_outcome dev k p gemm_config mp s r s' :
  launch_kernel dev k p gemm_config mp None s = (r, s') ->
  occupancies s' = occupancies s
  /\ (launches (trace s') <= launches (trace s) + 1)%nat
  /\ (r = Ok tt ->
      split_k_style gemm_config = NO_SPLIT_K
      /\ trace s' = trace s ++ launch_events dev k p mp).
Proof.
  destruct k. unfold launch_kernel, generic_moe_gemm_kernelLauncher,
    launch_events, launch_arguments. simpl.
  destruct (split_k_style gemm_config); simpl.
  2:{ intros [= <- <-]. repeat split; [lia | discriminate ..]. }
  unfold bind, call_maximum_active_blocks, call_can_implement,
    call_initialize, call_run.
  match goal with |- context [Z.min 2 ?m =? 0] =>
    destruct (Z.min 2 m =? 0) end.
  { intros [= <- <-]. simpl. rewrite launches_app. simpl.
    repeat split; [unfold launches at 2; simpl; lia | discriminate ..]. }
  match goal with |- context [gemm_can_implement dev ?k ?a] =>
    destruct (gemm_can_implement dev k a) end.
  2:{ intros [= <- <-]. simpl. rewrite !launches_app.
      repeat split; [unfold launches at 2 3; simpl; lia | discriminate ..]. }
  match goal with |- context [gemm_initialize dev ?k ?a] =>
    destruct (gemm_initialize dev k a) end.
  2:{ intros [= <- <-]. simpl. rewrite !launches_app.
      repeat split; [unfold launches at 2 3 4; simpl; lia | discriminate ..]. }
  simpl.
  match goal with |- context [gemm_run dev ?k ?a ?st ?m] =>
    destruct (gemm_run dev k a st m) as [[| msg] mem'] end;
    intros [= <- <-]; simpl; rewrite !launches_app;
    (split; [reflexivity |]);
    (split; [unfold launches at 2 3 4 5; simpl; lia |]);
    [| discriminate].
  intros _. split; [reflexivity |]. now rewrite <- !app_assoc.
Qed.

(** *** [run_gemm] in three phases *)

Lemma run_gemm_phases h dev this T WeightType tag p s :
  let candidate_configs :=
    get_candidate_configs h (sm_ this) (negb (is_same T WeightType))
      (is_same T float) in
  run_gemm h dev this T WeightType tag p s
  = match
      probe_occupancies dev this T WeightType tag p candidate_configs 0%nat
        (probing_state (length candidate_configs) s)
    with
    | (Throw e, s1) => (Throw e, s1)
    | (Ok _, s1) =>
        match select_config h this T WeightType p candidate_configs s1 with
        | (Throw e, s2) => (Throw e, s2)
        | (Ok chosen_config, s2) =>
            dispatch_to_arch dev this T WeightType tag p chosen_config None s2
        end
    end.
Proof.
  intros cands. unfold run_gemm, bind, new_occupancies. fold cands.
  fold (probing_state (length cands) s).
  destruct (probe_occupancies _ _ _ _ _ _ _ _ _) as [[[] | e] s1]; reflexivity.
Qed.

(** A candidate of a list that was probed through has its kernel among
    the probed ones. *)
Lemma probed_candidate_kernel sm T WeightType tag candidate_configs kernels
  c k :
  Forall2 (probed sm T WeightType tag) candidate_configs kernels ->
  In c candidate_configs ->
  resolve_kernel sm T WeightType tag c = Ok k ->
  In k kernels.
Proof.
  induction 1 as [| c0 k0 cs ks [Hres0 _] _ IH]; intros Hin Hres.
  - destruct Hin.
  - destruct Hin as [-> | Hin].
    + left. congruence.
    + right. now apply IH.
Qed.

(** C1 (amended): with a selector that returns one of the candidates it is
    given, an invocation of [run_gemm] that returns normally has probed
    the occupancy of every candidate of the catalog, in catalog order, has
    then had the heuristic select exactly one configuration from those
    candidates on the probed occupancies, and has then issued exactly one
    kernel launch, of the kernel the chosen configuration resolves to,
    which is one of the kernels probed.  Whatever the outcome, at most one
    launch is issued. *)
Theorem run_gemm_probes_selects_launches h dev this T WeightType tag p s r s' :
  selects_from_candidates h ->
  run_gemm h dev this T WeightType tag p s = (r, s') ->
  let candidate_configs :=
    get_candidate_configs h (sm_ this) (negb (is_same T WeightType))
      (is_same T float) in
  (launches (trace s') <= launches (trace s) + 1)%nat
  /\ (r = Ok tt ->
      exists kernels chosen_config k,
        Forall2 (probed (sm_ this) T WeightType tag) candidate_configs kernels
        /\ occupancies s' = map (compute_occupancy_for_kernel dev) kernels
        /\ estimate_best_config_from_occupancies h candidate_configs
             (occupancies s') (gp_total_rows p) (gp_gemm_n p) (gp_gemm_k p)
             (gp_num_experts p) split_k_limit workspace_bytes
             (multi_processor_count_ this) (negb (is_same T WeightType))
           = Ok chosen_config
        /\ In chosen_config candidate_configs
        /\ probed (sm_ this) T WeightType tag chosen_config k
        /\ In k kernels
        /\ trace s'
           = trace s ++ map EvComputeOccupancy kernels
               ++ launch_events dev k p (multi_processor_count_ this)
        /\ launches (trace s') = (launches (trace s) + 1)%nat).
Proof.
  intros Hcontract Hrun cands. rewrite run_gemm_phases in Hrun.
  fold cands in Hrun.
  destruct (probe_occupancies _ _ _ _ _ _ _ _ _) as [r1 s1] eqn:Hprobe.
  destruct (probe_occupancies_frame _ _ _ _ _ _ _ _ _ _ _ Hprobe)
    as (ks & Htr & Hmem).
  simpl in Htr, Hmem.
  assert (launches (trace s1) = launches (trace s)) as Hl1.
  { rewrite Htr, launches_app, launches_probes. lia. }
  destruct r1 as [[] | e].
  2:{ injection Hrun as <- <-. split; [lia | discriminate]. }
  unfold select_config in Hrun.
  destruct (estimate_best_config_from_occupancies _ _ _ _ _ _ _ _ _ _ _)
    as [chosen | e] eqn:Hsel.
  2:{ injection Hrun as <- <-. split; [lia | discriminate]. }
  rewrite dispatch_to_arch_resolves in Hrun.
  destruct (resolve_kernel _ _ _ _ chosen) as [k | e] eqn:Hres.
  2:{ injection Hrun as <- <-. split; [lia | discriminate]. }
  apply launch_kernel_outcome in Hrun as (Hsame & Hle & Hok).
  split; [lia |]. intros ->. destruct (Hok eq_refl) as [Hsplit Hevents].
  destruct (probe_occupancies_ok _ _ _ _ _ _ _ _ _ _ []
              (replicate (length cands) 0)
              Hprobe eq_refl eq_refl (length_replicate _ _))
    as (kernels & Hall & Hocc & Htr' & _).
  simpl in Hocc, Htr'.
  pose proof (Hcontract _ _ _ _ _ _ _ _ _ _ _ Hsel) as Hin.
  pose proof (probed_candidate_kernel _ _ _ _ _ _ _ _ Hall Hin Hres) as Hk.
  exists kernels, chosen, k. rewrite Hsame, Hevents, Htr'.
  repeat split; try assumption.
  - symmetry. apply List.app_assoc.
  - rewrite !launches_app, launches_probes.
    unfold launch_events, launches at 2. simpl. lia.
Qed.

(** *** The probing pass does not look at the operands *)

Lemma probe_occupancies_ignores_problem dev this T WeightType tag p p'
  candidate_configs :
  forall ii s,
    probe_occupancies dev this T WeightType tag p' candidate_configs ii s
    = probe_occupancies dev this T WeightType tag p candidate_configs ii s.
Proof.
  induction candidate_configs as [| c rest IH]; intros ii s; [reflexivity |].
  simpl. unfold bind. rewrite !dispatch_to_arch_probe.
  destruct (resolve_kernel _ _ _ _ c); [| reflexivity].
  destruct (is_no_split_k _); [apply IH | reflexivity].
Qed.

(** C9 (amended): [run_gemm] validates neither [num_experts] nor the
    row-boundary table.  Whatever the descriptor, it first probes the
    device for the candidates, and that pass does not depend on the
    operands: a failure during it is the failure of every invocation of
    this runner, and when it completes every candidate has been queried on
    the device before the descriptor is handed to the heuristic and to the
    launch. *)
Theorem run_gemm_does_not_validate_descriptor h dev this T WeightType tag p s :
  let candidate_configs :=
    get_candidate_configs h (sm_ this) (negb (is_same T WeightType))
      (is_same T float) in
  let s0 := probing_state (length candidate_configs) s in
  (forall p',
     probe_occupancies dev this T WeightType tag p' candidate_configs 0%nat s0
     = probe_occupancies dev this T WeightType tag p candidate_configs 0%nat s0)
  /\ (forall e s1,
        probe_occupancies dev this T WeightType tag p candidate_configs 0%nat s0
        = (Throw e, s1) ->
        forall p', run_gemm h dev this T WeightType tag p' s = (Throw e, s1))
  /\ (forall s1,
        probe_occupancies dev this T WeightType tag p candidate_configs 0%nat s0
        = (Ok tt, s1) ->
        (exists kernels,
           length kernels = length candidate_configs
           /\ trace s1 = trace s ++ map EvComputeOccupancy kernels)
        /\ run_gemm h dev this T WeightType tag p s
           = (chosen_config <-
                select_config h this T WeightType p candidate_configs ;;
              dispatch_to_arch dev this T WeightType tag p chosen_config None)
               s1).
Proof.
  intros cands s0. split; [| split].
  - intros p'. apply probe_occupancies_ignores_problem.
  - intros e s1 Hprobe p'. rewrite run_gemm_phases. fold cands. fold s0.
    now rewrite (probe_occupancies_ignores_problem _ _ _ _ _ p p'), Hprobe.
  - intros s1 Hprobe. split.
    + destruct (probe_occupancies_ok _ _ _ _ _ _ _ _ _ _ []
                  (replicate (length cands) 0)
                  Hprobe eq_refl eq_refl (length_replicate _ _))
        as (kernels & Hall & _ & Htr & _).
      exists kernels. split; [| exact Htr].
      symmetry. eapply Forall2_length; eassumption.
    + rewrite run_gemm_phases. fold cands. fold s0. rewrite Hprobe.
      unfold bind. destruct (select_config _ _ _ _ _ _ _) as [[c | e] s2];
        reflexivity.
Qed.

(** *** A candidate that does not dispatch *)

(** Whether a probe throws depends on the configuration only, and a probe
    that throws leaves the state as it was. *)
Lemma dispatch_to_arch_probe_throws dev this T WeightType tag p gemm_config
  cell s0 s0' e :
  dispatch_to_arch dev this T WeightType tag p gemm_config (Some cell) s0
  = (Throw e, s0') ->
  forall cell' s,
    dispatch_to_arch dev this T WeightType tag p gemm_config (Some cell') s
    = (Throw e, s).
Proof.
  intros H cell' s. rewrite dispatch_to_arch_probe in *.
  destruct (resolve_kernel _ _ _ _ _) as [k | e'].
  - destruct (is_no_split_k _); [discriminate |]. now injection H as <- _.
  - now injection H as <- _.
Qed.

Lemma probe_occupancies_app dev this T WeightType tag p rest :
  forall pre kernels ii s done todo,
    Forall2 (probed (sm_ this) T WeightType tag) pre kernels ->
    occupancies s = done ++ todo ->
    length done = ii ->
    length todo = (length pre + length rest)%nat ->
    probe_occupancies dev this T WeightType tag p (pre ++ rest) ii s
    = probe_occupancies dev this T WeightType tag p rest
        (ii + length pre)%nat
        {| occupancies :=
             done ++ map (compute_occupancy_for_kernel dev) kernels
               ++ drop (length pre) todo;
           device_mem := device_mem s;
           trace := trace s ++ map EvComputeOccupancy kernels |}.
Proof.
  induction pre as [| c pre IH];
    intros kernels ii s done todo Hall Hocc Hdone Htodo.
  - inversion Hall; subst. simpl.
    rewrite Nat.add_0_r, app_nil_r, drop_0, <- Hocc. now destruct s.
  - inversion Hall as [| c' k pre' ks [Hres Hsplit] Hrest]; subst.
    destruct todo as [| o todo]; [discriminate |].
    simpl. unfold bind at 1. rewrite dispatch_to_arch_probe, Hres, Hsplit.
    simpl.
    rewrite (IH ks _ _ (done ++ [compute_occupancy_for_kernel dev k]) todo);
      try assumption.
    + simpl. f_equal; [lia |].
      f_equal; now rewrite <- !app_assoc.
    + simpl. rewrite Hocc.
      replace (length done) with (length done + 0)%nat by lia.
      rewrite insert_app_r, <- app_assoc. reflexivity.
    + rewrite length_app. simpl. lia.
    + simpl in Htodo. lia.
Qed.

(** C10: when a candidate does not dispatch during the probing loop of
    [run_gemm] and the candidates before it did, [run_gemm] throws that
    candidate's exception at once: only the earlier candidates have been
    probed, the occupancy cells of the failing and the later candidates
    still hold their initial zero, device memory is unchanged and nothing
    is launched.  The outcome is stated without the selection function: no
    configuration is selected. *)
Theorem run_gemm_aborts_at_failing_candidate h dev this T WeightType tag p s
  pre c post kernels cell s0 s0' e :
  get_candidate_configs h (sm_ this) (negb (is_same T WeightType))
    (is_same T float) = pre ++ c :: post ->
  Forall2 (probed (sm_ this) T WeightType tag) pre kernels ->
  dispatch_to_arch dev this T WeightType tag p c (Some cell) s0
  = (Throw e, s0') ->
  run_gemm h dev this T WeightType tag p s
  = (Throw e,
     {| occupancies :=
          map (compute_occupancy_for_kernel dev) kernels
            ++ replicate (S (length post)) 0;
        device_mem := device_mem s;
        trace := trace s ++ map EvComputeOccupancy kernels |})
  /\ length kernels = length pre
  /\ launches (trace s ++ map EvComputeOccupancy kernels) = launches (trace s).
Proof.
  intros Hcat Hall Hfail. split; [| split].
  - rewrite run_gemm_phases. simpl. rewrite Hcat.
    rewrite (probe_occupancies_app dev this T WeightType tag p (c :: post)
               pre kernels 0%nat
               (probing_state (length (pre ++ c :: post)) s) []
               (replicate (length (pre ++ c :: post)) 0) Hall eq_refl eq_refl).
    2:{ rewrite length_replicate, length_app. reflexivity. }
    simpl. unfold bind.
    rewrite (dispatch_to_arch_probe_throws _ _ _ _ _ _ _ _ _ _ _ Hfail).
    do 3 f_equal. rewrite length_app. simpl.
    rewrite drop_replicate.
    now replace (length pre + S (length post) - length pre)%nat
      with (S (length post)) by lia.
  - symmetry. eapply Forall2_length; eassumption.
  - rewrite launches_app, launches_probes. lia.
Qed.

End Dispatch.

(** ** The catalog and selector modelled from the spec *)

Lemma best_by_occupancy_sound candidate_configs :
  forall occs best c o,
    best_by_occupancy candidate_configs occs best = Some (c, o) ->
    best = Some (c, o) \/ (In c candidate_configs /\ o <> 0).
Proof.
  induction candidate_configs as [| c0 cs IH]; intros occs best c o H.
  - left. destruct occs; exact H.
  - destruct occs as [| o0 os]; [now left |]. simpl in H.
    apply IH in H as [H | [Hin Ho]]; [| right; split; [now right | exact Ho]].
    destruct (Z.eqb_spec o0 0) as [| Hne]; [now left |].
    destruct best as [[cb bo] |].
    + destruct (bo <? o0); [| now left].
      injection H as <- <-. right. split; [now left | exact Hne].
    + injection H as <- <-. right. split; [now left | exact Hne].
Qed.

(** The modelled selector returns one of its candidates. *)
Lemma select_by_occupancy_member candidate_configs occs m n k e sk ws mp wo c :
  select_by_occupancy candidate_configs occs m n k e sk ws mp wo = Ok c ->
  In c candidate_configs.
Proof.
  unfold select_by_occupancy.
  destruct (best_by_occupancy candidate_configs occs None) as [[c' o] |] eqn:H;
    [| discriminate].
  intros [= <-]. apply best_by_occupancy_sound in H as [H | [H _]];
    [discriminate | exact H].
Qed.

(** The modelled catalog is never empty. *)
Lemma catalog_nonempty sm is_weight_only only_simt_configs :
  catalog sm is_weight_only only_simt_configs <> [].
Proof.
  unfold catalog, catalog_tiles, catalog_stages.
  destruct only_simt_configs, is_weight_only, (80 <=? sm); discriminate.
Qed.

(** ** The statements at concrete calls *)

(** An [sm_] of 60 is outside the three bands. *)
Lemma dispatch_to_arch_routes_witness :
  ~ (70 <= sm_ pascal_runner < 90)
  /\ dispatch_to_arch roomy_device pascal_runner half half EpilogueOpBiasReLU
       sample_problem (sample_config sample_tile 2) None fresh_state
     = (Throw ArchUnsupported, fresh_state).
Proof.
  assert (~ (70 <= sm_ pascal_runner < 90)) as H by (simpl; lia).
  split; [exact H |].
  exact (proj2 (proj2 (proj2
           (dispatch_to_arch_routes roomy_device pascal_runner half half
              EpilogueOpBiasReLU sample_problem (sample_config sample_tile 2)
              None))) H fresh_state).
Defined.

(** Three stages on an [sm_] of 75. *)
Lemma dispatch_rejects_unsupported_stages_witness :
  (70 <= sm_ turing_runner < 90
   /\ stages (sample_config sample_tile 3) = 3
   /\ sm_ turing_runner < 80)
  /\ exists e,
       dispatch_to_arch roomy_device turing_runner half half
         EpilogueOpBiasReLU sample_problem (sample_config sample_tile 3) None
         fresh_state
       = (Throw e, fresh_state)
       /\ error_class e = ConfigurationError.
Proof.
  assert (70 <= sm_ turing_runner < 90) as H1 by (simpl; lia).
  assert (sm_ turing_runner < 80) as H2 by (simpl; lia).
  split; [exact (conj H1 (conj eq_refl H2)) |].
  exact (proj2 (proj2
           (dispatch_rejects_unsupported_stages roomy_device half half
              EpilogueOpBiasReLU sample_problem (sample_config sample_tile 3)
              0 None fresh_state))
           turing_runner H1 (or_intror (conj (or_introl eq_refl) H2))).
Defined.

(** A split-k request on a supported device. *)
Lemma dispatch_rejects_split_k_witness :
  split_k_style split_k_config <> NO_SPLIT_K
  /\ exists e,
       dispatch_to_arch roomy_device ampere_runner half half
         EpilogueOpBiasReLU sample_problem split_k_config None fresh_state
       = (Throw e, fresh_state)
       /\ (error_class e = ConfigurationError \/ e = ArchUnsupported)
       /\ what e <> "".
Proof.
  assert (split_k_style split_k_config <> NO_SPLIT_K) as H by discriminate.
  split; [exact H |].
  exact (proj1
           (dispatch_rejects_split_k_and_placeholder_tiles roomy_device
              ampere_runner half half EpilogueOpBiasReLU sample_problem
              split_k_config None fresh_state (or_introl H))).
Defined.

(** The launch plan on the roomy device: 108 multiprocessors, occupancy
    2. *)
Lemma launcher_threadblock_count_witness :
  split_k_style (sample_config sample_tile 2) = NO_SPLIT_K
  /\ Z.min 2 (maximum_active_blocks roomy_device sample_kernel) <> 0
  /\ (exists r s' rest,
        generic_moe_gemm_kernelLauncher roomy_device half half Sm80
          EpilogueOpBiasReLU (Shape 32 128 64) (Shape 32 32 64) 2
          sample_problem (sample_config sample_tile 2) 108 None fresh_state
        = (r, s')
        /\ trace s'
           = trace fresh_state
               ++ EvMaximumActiveBlocks sample_kernel
               :: EvCanImplement sample_kernel
                    (GemmGrouped_Arguments sample_problem
                       (int_mul 108
                          (Z.min 2
                             (maximum_active_blocks roomy_device sample_kernel))))
               :: rest
        /\ (rest = []
            \/ rest
               = [EvInitialize sample_kernel
                    (GemmGrouped_Arguments sample_problem
                       (int_mul 108
                          (Z.min 2
                             (maximum_active_blocks roomy_device sample_kernel))))]
            \/ rest
               = [EvInitialize sample_kernel
                    (GemmGrouped_Arguments sample_problem
                       (int_mul 108
                          (Z.min 2
                             (maximum_active_blocks roomy_device sample_kernel))));
                  EvRun sample_kernel
                    (GemmGrouped_Arguments sample_problem
                       (int_mul 108
                          (Z.min 2
                             (maximum_active_blocks roomy_device sample_kernel))))
                    (gp_stream sample_problem)])
        /\ (r = Ok tt ->
            rest
            = [EvInitialize sample_kernel
                 (GemmGrouped_Arguments sample_problem
                    (int_mul 108
                       (Z.min 2
                          (maximum_active_blocks roomy_device sample_kernel))));
               EvRun sample_kernel
                 (GemmGrouped_Arguments sample_problem
                    (int_mul 108
                       (Z.min 2
                          (maximum_active_blocks roomy_device sample_kernel))))
                 (gp_stream sample_problem)]))
  /\ int_mul 108 (Z.min 2 (maximum_active_blocks roomy_device sample_kernel))
     = 216.
Proof.
  assert (Z.min 2 (maximum_active_blocks roomy_device sample_kernel) <> 0)
    as Hne by discriminate.
  split; [reflexivity |]. split; [exact Hne |].
  split; [| reflexivity].
  exact (proj1 (proj2
           (launcher_threadblock_count roomy_device half half Sm80
              EpilogueOpBiasReLU (Shape 32 128 64) (Shape 32 32 64) 2
              sample_problem (sample_config sample_tile 2) 108 fresh_state
              eq_refl)) Hne).
Defined.

(** A probe into cell 1 of a three-cell vector. *)
Lemma launcher_probe_only_witness :
  split_k_style (sample_config sample_tile 2) = NO_SPLIT_K
  /\ exists s',
       generic_moe_gemm_kernelLauncher roomy_device half half Sm80
         EpilogueOpBiasReLU (Shape 32 128 64) (Shape 32 32 64) 2
         sample_problem (sample_config sample_tile 2) 108 (Some 1%nat)
         (probing_state 3 busy_state)
       = (Ok tt, s')
       /\ occupancies s'
          = <[1%nat := compute_occupancy_for_kernel roomy_device sample_kernel]>
              (occupancies (probing_state 3 busy_state))
       /\ ((1 < length (occupancies (probing_state 3 busy_state)))%nat ->
           occupancies s' !! 1%nat
           = Some (compute_occupancy_for_kernel roomy_device sample_kernel))
       /\ (forall j, j <> 1%nat ->
           occupancies s' !! j
           = occupancies (probing_state 3 busy_state) !! j)
       /\ device_mem s' = device_mem (probing_state 3 busy_state)
       /\ trace s'
          = trace (probing_state 3 busy_state)
              ++ [EvComputeOccupancy sample_kernel]
       /\ launches (trace s') = launches (trace (probing_state 3 busy_state)).
Proof.
  split; [reflexivity |].
  exact (launcher_probe_only roomy_device half half Sm80 EpilogueOpBiasReLU
           (Shape 32 128 64) (Shape 32 32 64) 2 sample_problem
           (sample_config sample_tile 2) 108 1%nat
           (probing_state 3 busy_state) eq_refl).
Defined.

(** With split-k requested, the launcher in probe mode throws and leaves
    the occupancy cell as it was: nothing is written through the pointer. *)
Lemma launcher_probe_split_k_throws :
  generic_moe_gemm_kernelLauncher roomy_device half half Sm80
    EpilogueOpBiasReLU (Shape 32 128 64) (Shape 32 32 64) 2
    sample_problem split_k_config 108 (Some 0%nat) busy_state
  = (Throw SplitKNotSupported, busy_state)
  /\ occupancies busy_state !! 0%nat = Some 5
  /\ compute_occupancy_for_kernel roomy_device sample_kernel = 2.
Proof. repeat split. Qed.

(** The sample call on an [sm_] of 60: the first probe throws, so nothing
    is probed, nothing is selected and nothing is launched. *)
Lemma run_gemm_unsupported_arch_launches_nothing :
  run_gemm occupancy_heuristic roomy_device pascal_runner half half
    EpilogueOpBiasReLU sample_problem fresh_state
  = (Throw ArchUnsupported, probing_state 3 fresh_state)
  /\ trace (probing_state 3 fresh_state) = []
  /\ launches (trace (probing_state 3 fresh_state)) = 0%nat.
Proof. repeat split. Qed.

(** The sample call end to end: nine probes, one selection among the nine
    candidates, one launch. *)
Lemma run_gemm_probes_selects_launches_witness :
  (selects_from_candidates occupancy_heuristic
   /\ run_gemm occupancy_heuristic roomy_device ampere_runner half half
        EpilogueOpBiasReLU sample_problem fresh_state
      = (Ok tt, snd sample_run))
  /\ (launches (trace (snd sample_run)) <= launches (trace fresh_state) + 1)%nat
  /\ (Ok tt = Ok tt ->
      exists kernels chosen_config k,
        Forall2 (probed (sm_ ampere_runner) half half EpilogueOpBiasReLU)
          (get_candidate_configs occupancy_heuristic (sm_ ampere_runner)
             (negb (is_same half half)) (is_same half float))
          kernels
        /\ occupancies (snd sample_run)
           = map (compute_occupancy_for_kernel roomy_device) kernels
        /\ estimate_best_config_from_occupancies occupancy_heuristic
             (get_candidate_configs occupancy_heuristic (sm_ ampere_runner)
                (negb (is_same half half)) (is_same half float))
             (occupancies (snd sample_run)) (gp_total_rows sample_problem)
             (gp_gemm_n sample_problem) (gp_gemm_k sample_problem)
             (gp_num_experts sample_problem) split_k_limit workspace_bytes
             (multi_processor_count_ ampere_runner) (negb (is_same half half))
           = Ok chosen_config
        /\ In chosen_config
             (get_candidate_configs occupancy_heuristic (sm_ ampere_runner)
                (negb (is_same half half)) (is_same half float))
        /\ probed (sm_ ampere_runner) half half EpilogueOpBiasReLU
             chosen_config k
        /\ In k kernels
        /\ trace (snd sample_run)
           = trace fresh_state ++ map EvComputeOccupancy kernels
               ++ launch_events roomy_device k sample_problem
                    (multi_processor_count_ ampere_runner)
        /\ launches (trace (snd sample_run))
           = (launches (trace fresh_state) + 1)%nat).
Proof.
  assert (selects_from_candidates occupancy_heuristic) as Hc.
  { intros cands occs m n k e sk ws mp wo c.
    apply select_by_occupancy_member. }
  assert (run_gemm occupancy_heuristic roomy_device ampere_runner half half
            EpilogueOpBiasReLU sample_problem fresh_state
          = (Ok tt, snd sample_run)) as H by (vm_compute; reflexivity).
  split; [exact (conj Hc H) |].
  exact (run_gemm_probes_selects_launches occupancy_heuristic roomy_device
           ampere_runner half half EpilogueOpBiasReLU sample_problem
           fresh_state (Ok tt) (snd sample_run) Hc H).
Defined.

(** An empty expert set on a supported device: the call is not rejected.
    The device is queried ten times (nine probes and the occupancy of the
    launch) and the kernel is launched with [num_experts = 0]. *)
Lemma run_gemm_accepts_no_experts :
  gp_num_experts no_expert_problem = 0
  /\ exists s',
       run_gemm occupancy_heuristic roomy_device ampere_runner half half
         EpilogueOpBiasReLU no_expert_problem fresh_state
       = (Ok tt, s')
       /\ length (List.filter is_device_query (trace s')) = 10%nat
       /\ launches (trace s') = 1%nat
       /\ last (trace s')
          = Some (EvRun sample_kernel
                    (GemmGrouped_Arguments no_expert_problem 216) 1).
Proof.
  split; [reflexivity |]. eexists. split; [vm_compute; reflexivity |].
  repeat split.
Qed.

(** On an [sm_] of 75 the three-stage candidate does not dispatch: the
    first candidate has been probed, the third never is. *)
Lemma run_gemm_aborts_at_failing_candidate_witness :
  (get_candidate_configs deep_pipeline_heuristic (sm_ turing_runner)
     (negb (is_same half half)) (is_same half float)
   = [sample_config sample_tile 2]
       ++ sample_config sample_tile 3
       :: [sample_config CtaShape64x128x64_WarpShape32x64x64 2]
   /\ Forall2 (probed (sm_ turing_runner) half half EpilogueOpBiasReLU)
        [sample_config sample_tile 2] [turing_kernel]
   /\ dispatch_to_arch roomy_device turing_runner half half
        EpilogueOpBiasReLU sample_problem (sample_config sample_tile 3)
        (Some 1%nat) fresh_state
      = (Throw (StagesNotInstantiated 75 3), fresh_state))
  /\ run_gemm deep_pipeline_heuristic roomy_device turing_runner half half
       EpilogueOpBiasReLU sample_problem busy_state
     = (Throw (StagesNotInstantiated 75 3),
        {| occupancies :=
             map (compute_occupancy_for_kernel roomy_device) [turing_kernel]
               ++ replicate 2 0;
           device_mem := device_mem busy_state;
           trace := trace busy_state ++ map EvComputeOccupancy [turing_kernel] |})
  /\ length [turing_kernel]
     = length [sample_config sample_tile 2]
  /\ launches (trace busy_state ++ map EvComputeOccupancy [turing_kernel])
     = launches (trace busy_state).
Proof.
  assert (Forall2 (probed (sm_ turing_runner) half half EpilogueOpBiasReLU)
            [sample_config sample_tile 2] [turing_kernel]) as Hall.
  { constructor; [split; reflexivity | constructor]. }
  split; [exact (conj eq_refl (conj Hall eq_refl)) |].
  exact (run_gemm_aborts_at_failing_candidate deep_pipeline_heuristic
           roomy_device turing_runner half half EpilogueOpBiasReLU
           sample_problem busy_state [sample_config sample_tile 2]
           (sample_config sample_tile 3)
           [sample_config CtaShape64x128x64_WarpShape32x64x64 2]
           [turing_kernel] 1%nat fresh_state fresh_state
           (StagesNotInstantiated 75 3) eq_refl Hall eq_refl).
Defined.

(** * Further properties of the dispatch tower and the launcher *)

Section Coverage.

Context {Mem : Type}.
Implicit Types (dev : Device Mem) (s : State Mem) (this : MoeGemmRunner).
Implicit Types (T WeightType : ElementType) (arch : Arch) (tag : EpilogueTag).
Implicit Types (p : GemmProblem) (gemm_config : CutlassGemmConfig).
Implicit Types (k : Kernel).

(** *** When a configuration resolves *)

Lemma resolve_shapes_accepted path t :
  (exists shapes, resolve_shapes path t = Ok shapes)
  <-> In t (accepted_tiles path).
Proof.
  destruct path, t; simpl; split;
    try (intros [shapes H]; discriminate);
    try (intros _; eexists; reflexivity);
    try (intros _; tauto);
    intros H; exfalso; intuition discriminate.
Qed.

Lemma resolve_stages_ok arch st st' :
  resolve_stages arch st = Ok st'
  <-> (st = 2 \/ ((st = 3 \/ st = 4) /\ arch = Sm80)) /\ st' = st.
Proof.
  unfold resolve_stages.
  destruct (Z.eqb_spec st 2) as [-> | H2]; simpl.
  { split; [intros [= <-]; auto | intros [_ ->]; reflexivity]. }
  destruct (Z.eqb_spec st 3) as [-> | H3]; simpl.
  { destruct arch; split; try discriminate;
      try (intros [[? | [_ ?]] _]; discriminate || lia).
    - intros [= <-]. auto.
    - intros [_ ->]. reflexivity. }
  destruct (Z.eqb_spec st 4) as [-> | H4]; simpl.
  { destruct arch; split; try discriminate;
      try (intros [[? | [_ ?]] _]; discriminate || lia).
    - intros [= <-]. auto.
    - intros [_ ->]. reflexivity. }
  split; [discriminate | intros [[? | [[? | ?] _]] _]; contradiction].
Qed.

Lemma resolve_kernel_ok sm T WeightType tag gemm_config k :
  resolve_kernel sm T WeightType tag gemm_config = Ok k ->
  70 <= sm < 90
  /\ In (tile_config gemm_config) (accepted_tiles (dispatch_path T WeightType))
  /\ (stages gemm_config = 2
      \/ ((stages gemm_config = 3 \/ stages gemm_config = 4) /\ 80 <= sm))
  /\ kT k = T /\ kWeightType k = WeightType /\ kEpilogueTag k = tag
  /\ resolve_arch sm = Ok (karch k)
  /\ resolve_shapes (dispatch_path T WeightType) (tile_config gemm_config)
     = Ok (kThreadblockShape k, kWarpShape k)
  /\ kStages k = stages gemm_config.
Proof.
  unfold resolve_kernel.
  destruct (resolve_arch sm) as [arch | e] eqn:Ha; [| discriminate].
  destruct (resolve_shapes _ _) as [[tb warp] | e] eqn:Hs; [| discriminate].
  destruct (resolve_stages _ _) as [st | e] eqn:Hst; [| discriminate].
  intros [= <-]. simpl.
  apply resolve_arch_band in Ha as Hband. destruct Hband as [Hsm Harch].
  apply resolve_stages_ok in Hst as [Hst ->].
  split; [exact Hsm |]. split; [apply resolve_shapes_accepted; eauto |].
  split; [| repeat split].
  destruct Hst as [? | [? ?]]; [now left | right]. split; [assumption |].
  now apply Harch.
Qed.

Lemma resolve_kernel_accepts sm T WeightType tag gemm_config :
  70 <= sm < 90 ->
  In (tile_config gemm_config) (accepted_tiles (dispatch_path T WeightType)) ->
  stages gemm_config = 2
  \/ ((stages gemm_config = 3 \/ stages gemm_config = 4) /\ 80 <= sm) ->
  exists k, resolve_kernel sm T WeightType tag gemm_config = Ok k.
Proof.
  intros Hsm Htile Hst. unfold resolve_kernel.
  destruct (resolve_arch_supported _ Hsm) as [arch Ha]. rewrite Ha.
  apply resolve_shapes_accepted in Htile as [[tb warp] ->].
  assert (resolve_stages arch (stages gemm_config) = Ok (stages gemm_config))
    as ->.
  { apply resolve_stages_ok. split; [| reflexivity].
    destruct Hst as [? | [? ?]]; [now left | right]. split; [assumption |].
    now apply (resolve_arch_band _ _ Ha). }
  eexists. reflexivity.
Qed.

(** A probe goes through exactly when the configuration resolves and does
    not request split-k; it then queries that kernel and nothing else. *)
Lemma probe_goes_through dev this T WeightType tag p gemm_config cell s s' :
  dispatch_to_arch dev this T WeightType tag p gemm_config (Some cell) s
  = (Ok tt, s') <->
  exists k,
    probed (sm_ this) T WeightType tag gemm_config k
    /\ s' = {| occupancies :=
                 <[cell := compute_occupancy_for_kernel dev k]> (occupancies s);
               device_mem := device_mem s;
               trace := trace s ++ [EvComputeOccupancy k] |}.
Proof.
  rewrite dispatch_to_arch_probe. unfold probed.
  destruct (resolve_kernel _ _ _ _ _) as [k | e].
  - destruct (split_k_style gemm_config); simpl; split.
    + intros [= <-]. eauto.
    + intros (k' & [[= <-] _] & ->). reflexivity.
    + discriminate.
    + intros (k' & [_ ?] & _). discriminate.
  - split; [discriminate | intros (k' & [? _] & _); discriminate].
Qed.

(** X1: a configuration gets through [dispatch_to_arch] in probe mode
    exactly when the stored capability is in [70,90), its tile tag is one
    the overload for the element types has a case for, its stage count is 2
    (or 3 or 4 with a capability of at least 80), and it does not request
    split-k. *)
Theorem probe_accepts_iff dev this T WeightType tag p gemm_config cell s :
  (exists s',
     dispatch_to_arch dev this T WeightType tag p gemm_config (Some cell) s
     = (Ok tt, s'))
  <-> (70 <= sm_ this < 90
       /\ In (tile_config gemm_config)
            (accepted_tiles (dispatch_path T WeightType))
       /\ (stages gemm_config = 2
           \/ ((stages gemm_config = 3 \/ stages gemm_config = 4)
               /\ 80 <= sm_ this))
       /\ split_k_style gemm_config = NO_SPLIT_K).
Proof.
  split.
  - intros [s' H]. apply probe_goes_through in H as (k & [Hres Hsplit] & _).
    apply resolve_kernel_ok in Hres. tauto.
  - intros (Hsm & Htile & Hst & Hsplit).
    destruct (resolve_kernel_accepts _ T WeightType tag _ Hsm Htile Hst)
      as [k Hres].
    eexists. apply probe_goes_through. exists k. split; [| reflexivity].
    now split.
Qed.

(** X2: a configuration whose probe goes through on one supported device
    also goes through on every device of the top band [80,90); the kernel
    queried there is the same instantiation but for [Sm80]. *)
Theorem top_tier_accepts_lower_tier_configs dev this this' T WeightType tag p
  gemm_config cell cell' s s1 s' :
  dispatch_to_arch dev this T WeightType tag p gemm_config (Some cell) s
  = (Ok tt, s1) ->
  80 <= sm_ this' < 90 ->
  exists k s1',
    trace s1 = trace s ++ [EvComputeOccupancy k]
    /\ dispatch_to_arch dev this' T WeightType tag p gemm_config (Some cell') s'
       = (Ok tt, s1')
    /\ trace s1'
       = trace s'
           ++ [EvComputeOccupancy
                 {| kT := kT k; kWeightType := kWeightType k; karch := Sm80;
                    kEpilogueTag := kEpilogueTag k;
                    kThreadblockShape := kThreadblockShape k;
                    kWarpShape := kWarpShape k; kStages := kStages k |}].
Proof.
  intros H Hsm'. apply probe_goes_through in H as (k & [Hres Hsplit] & ->).
  exists k. eexists. split; [reflexivity |].
  apply resolve_kernel_ok in Hres
    as (Hsm & Htile & Hst & HT & HW & Htag & _ & Hshapes & Hstages).
  assert (resolve_kernel (sm_ this') T WeightType tag gemm_config
          = Ok {| kT := kT k; kWeightType := kWeightType k; karch := Sm80;
                  kEpilogueTag := kEpilogueTag k;
                  kThreadblockShape := kThreadblockShape k;
                  kWarpShape := kWarpShape k; kStages := kStages k |}) as Hres'.
  { unfold resolve_kernel. rewrite (resolve_arch_Sm80 _ Hsm'), Hshapes.
    assert (resolve_stages Sm80 (stages gemm_config) = Ok (stages gemm_config))
      as ->.
    { apply resolve_stages_ok. split; [| reflexivity].
      destruct Hst as [? | [? _]]; [now left | now right]. }
    now rewrite HT, HW, Htag, Hstages. }
  split.
  - apply probe_goes_through. eexists. split; [split; eassumption | reflexivity].
  - reflexivity.
Qed.

(** X3: no configuration serves both a [float] runner and a tensor-op
    runner: when the probe of a configuration goes through for element type
    [T1], every dispatch of it for an element type on the other side of the
    [float] divide throws the invalid-for-this-path error of its overload
    and leaves the state as it was. *)
Theorem float_and_tensorop_configs_exclusive dev this T1 W1 T2 W2 tag1 tag2
  p1 p2 gemm_config cell occupancy s s1 s2 :
  is_same T1 float <> is_same T2 float ->
  dispatch_to_arch dev this T1 W1 tag1 p1 gemm_config (Some cell) s
  = (Ok tt, s1) ->
  dispatch_to_arch dev this T2 W2 tag2 p2 gemm_config occupancy s2
  = (Throw (ConfigInvalidForPath (dispatch_path T2 W2)), s2).
Proof.
  intros Hne H. apply probe_goes_through in H as (k & [Hres _] & _).
  apply resolve_kernel_ok in Hres as (Hsm & Htile & _).
  rewrite dispatch_to_arch_resolves. unfold resolve_kernel.
  destruct (resolve_arch_supported _ Hsm) as [arch ->].
  revert Htile Hne. unfold dispatch_path.
  destruct (is_same T1 float), (is_same T2 float); try congruence;
    destruct (is_same T1 W1), (is_same T2 W2), (tile_config gemm_config);
    simpl; intros Htile _; try reflexivity; exfalso; intuition discriminate.
Qed.

(** *** The launcher in launch mode, step by step *)

Lemma launch_kernel_steps dev k p gemm_config mp s :
  split_k_style gemm_config = NO_SPLIT_K ->
  launch_kernel dev k p gemm_config mp None s
  = let args := launch_arguments dev k p mp in
    let s1 := log (EvMaximumActiveBlocks k) s in
    if Z.min 2 (maximum_active_blocks dev k) =? 0 then
      (Throw LacksSharedMemory, s1)
    else
      match gemm_can_implement dev k args with
      | kFailure msg =>
          (Throw (CanImplementFailed msg), log (EvCanImplement k args) s1)
      | kSuccess =>
          match gemm_initialize dev k args with
          | kFailure msg =>
              (Throw (InitializeFailed msg),
               log (EvInitialize k args) (log (EvCanImplement k args) s1))
          | kSuccess =>
              let s3 :=
                {| occupancies := occupancies s;
                   device_mem :=
                     snd (gemm_run dev k args (gp_stream p) (device_mem s));
                   trace :=
                     trace s
                       ++ [EvMaximumActiveBlocks k; EvCanImplement k args;
                           EvInitialize k args;
                           EvRun k args (gp_stream p)] |} in
              match fst (gemm_run dev k args (gp_stream p) (device_mem s)) with
              | kFailure msg => (Throw (RunFailed msg), s3)
              | kSuccess => (Ok tt, s3)
              end
          end
      end.
Proof.
  intros Hsplit. destruct k.
  unfold launch_kernel, generic_moe_gemm_kernelLauncher, launch_arguments.
  simpl. rewrite Hsplit. simpl.
  unfold bind, call_maximum_active_blocks, call_can_implement,
    call_initialize, call_run.
  match goal with |- context [Z.min 2 ?m =? 0] =>
    destruct (Z.min 2 m =? 0) end; [reflexivity |].
  match goal with |- context [gemm_can_implement dev ?k ?a] =>
    destruct (gemm_can_implement dev k a) end; [| reflexivity].
  match goal with |- context [gemm_initialize dev ?k ?a] =>
    destruct (gemm_initialize dev k a) end; [| reflexivity].
  simpl.
  match goal with |- context [gemm_run dev ?k ?a ?st ?m] =>
    destruct (gemm_run dev k a st m) as [[| msg] mem'] end;
    simpl; rewrite <- !app_assoc; reflexivity.
Qed.

Lemma launch_kernel_split_k dev k p gemm_config mp occupancy s :
  split_k_style gemm_config <> NO_SPLIT_K ->
  launch_kernel dev k p gemm_config mp occupancy s
  = (Throw SplitKNotSupported, s).
Proof. intros H. unfold launch_kernel. now apply launcher_rejects_split_k. Qed.

(** X4: a configuration whose probe went through cannot fail at launch
    with a configuration or architecture error: a launch-mode dispatch of
    it that throws does so after querying the occupancy of the very kernel
    that was probed, with a resource, pre-flight or launch error. *)
Theorem probed_config_fails_only_on_device dev this T WeightType tag p
  gemm_config cell s s1 s2 s2' e :
  dispatch_to_arch dev this T WeightType tag p gemm_config (Some cell) s
  = (Ok tt, s1) ->
  dispatch_to_arch dev this T WeightType tag p gemm_config None s2
  = (Throw e, s2') ->
  (error_class e = ResourceError \/ error_class e = PreflightRejection
   \/ error_class e = LaunchError)
  /\ exists k rest,
       trace s1 = trace s ++ [EvComputeOccupancy k]
       /\ trace s2' = trace s2 ++ EvMaximumActiveBlocks k :: rest.
Proof.
  intros Hprobe Hlaunch.
  apply probe_goes_through in Hprobe as (k & [Hres Hsplit] & ->).
  rewrite dispatch_to_arch_resolves, Hres, launch_kernel_steps in Hlaunch
    by assumption.
  cbv zeta in Hlaunch.
  destruct (Z.min 2 _ =? 0).
  { injection Hlaunch as <- <-. split; [now left |].
    exists k, []. now split. }
  destruct (gemm_can_implement _ _ _).
  2:{ injection Hlaunch as <- <-. split; [right; now left |].
      exists k. eexists. split; [reflexivity |]. simpl.
      rewrite <- app_assoc. reflexivity. }
  destruct (gemm_initialize _ _ _).
  2:{ injection Hlaunch as <- <-. split; [right; now right |].
      exists k. eexists. split; [reflexivity |]. simpl.
      rewrite <- !app_assoc. reflexivity. }
  destruct (fst _); [discriminate |].
  injection Hlaunch as <- <-. split; [right; now right |].
  exists k. eexists. split; reflexivity.
Qed.

(** X5: in launch mode the launcher returns normally exactly when the
    configuration does not request split-k, [min 2 (maximum_active_blocks)]
    is not zero, and [can_implement], [initialize] and [run] all report
    success for the argument block it builds. *)
Theorem launcher_succeeds_iff dev T WeightType arch tag tb warp st p
  gemm_config mp s :
  let k :=
    {| kT := T; kWeightType := WeightType; karch := arch; kEpilogueTag := tag;
       kThreadblockShape := tb; kWarpShape := warp; kStages := st |} in
  let args := launch_arguments dev k p mp in
  (exists s',
     generic_moe_gemm_kernelLauncher dev T WeightType arch tag tb warp st p
       gemm_config mp None s
     = (Ok tt, s'))
  <-> (split_k_style gemm_config = NO_SPLIT_K
       /\ Z.min 2 (maximum_active_blocks dev k) <> 0
       /\ gemm_can_implement dev k args = kSuccess
       /\ gemm_initialize dev k args = kSuccess
       /\ fst (gemm_run dev k args (gp_stream p) (device_mem s)) = kSuccess).
Proof.
  intros k args.
  change (generic_moe_gemm_kernelLauncher dev T WeightType arch tag tb warp st
            p gemm_config mp None s)
    with (launch_kernel dev k p gemm_config mp None s).
  destruct (split_k_style gemm_config) eqn:Hsplit.
  2:{ rewrite launch_kernel_split_k by (rewrite Hsplit; discriminate).
      split; [intros [s' H]; discriminate | intros [H _]; discriminate]. }
  rewrite launch_kernel_steps by assumption. cbv zeta. fold args.
  destruct (Z.eqb_spec (Z.min 2 (maximum_active_blocks dev k)) 0) as [H0 | H0].
  { split; [intros [s' H]; discriminate | tauto]. }
  destruct (gemm_can_implement dev k args).
  2:{ split; [intros [s' H]; discriminate | intros (_ & _ & H & _); discriminate]. }
  destruct (gemm_initialize dev k args).
  2:{ split; [intros [s' H]; discriminate
             | intros (_ & _ & _ & H & _); discriminate]. }
  destruct (fst _).
  - split; [tauto | eauto].
  - split; [intros [s' H]; discriminate
           | intros (_ & _ & _ & _ & H); discriminate].
Qed.

(** *** What a launch hands to the device *)

Lemma launch_kernel_calls dev k p gemm_config mp s r s' :
  launch_kernel dev k p gemm_config mp None s = (r, s') ->
  exists new,
    trace s' = trace s ++ new
    /\ Forall (fun e =>
                 event_kernel e = k
                 /\ forall args,
                      event_arguments e = Some args ->
                      args = launch_arguments dev k p mp) new.
Proof.
  destruct (split_k_style gemm_config) eqn:Hsplit.
  2:{ rewrite launch_kernel_split_k by (rewrite Hsplit; discriminate).
      intros [= <- <-]. exists []. now rewrite app_nil_r. }
  rewrite launch_kernel_steps by assumption. cbv zeta.
  assert (forall e : Event,
            event_kernel e = k ->
            (forall args, event_arguments e = Some args ->
                          args = launch_arguments dev k p mp) ->
            event_kernel e = k
            /\ forall args, event_arguments e = Some args ->
                            args = launch_arguments dev k p mp) as Hev
    by (intros; now split).
  destruct (Z.min 2 _ =? 0).
  { intros [= <- <-]. eexists. split; [reflexivity |].
    repeat constructor. discriminate. }
  destruct (gemm_can_implement _ _ _).
  2:{ intros [= <- <-]. exists [EvMaximumActiveBlocks k;
        EvCanImplement k (launch_arguments dev k p mp)]. simpl.
      split; [now rewrite <- app_assoc |].
      repeat constructor; simpl; congruence. }
  destruct (gemm_initialize _ _ _).
  2:{ intros [= <- <-]. exists [EvMaximumActiveBlocks k;
        EvCanImplement k (launch_arguments dev k p mp);
        EvInitialize k (launch_arguments dev k p mp)]. simpl.
      split; [now rewrite <- !app_assoc |].
      repeat constructor; simpl; congruence. }
  destruct (fst _); intros [= <- <-]; (eexists; split; [reflexivity |]);
    repeat constructor; simpl; congruence.
Qed.

(** X6: when [maximum_active_blocks] is positive and the multiprocessor
    count is in [0, 2^30), every argument block the launcher hands to the
    device carries the exact product of the multiprocessor count and
    [min 2 (maximum_active_blocks)], which lies between one and two times
    the multiprocessor count. *)
Theorem launcher_threadblock_count_bounds dev T WeightType arch tag tb warp st
  p gemm_config mp s r s' :
  let k :=
    {| kT := T; kWeightType := WeightType; karch := arch; kEpilogueTag := tag;
       kThreadblockShape := tb; kWarpShape := warp; kStages := st |} in
  0 < maximum_active_blocks dev k ->
  0 <= mp < 2 ^ 30 ->
  generic_moe_gemm_kernelLauncher dev T WeightType arch tag tb warp st p
    gemm_config mp None s
  = (r, s') ->
  exists new,
    trace s' = trace s ++ new
    /\ Forall (fun e =>
                 forall args,
                   event_arguments e = Some args ->
                   arg_threadblock_count args
                   = mp * Z.min 2 (maximum_active_blocks dev k)
                   /\ mp <= arg_threadblock_count args <= 2 * mp) new.
Proof.
  intros k Hpos Hmp Hrun.
  change (generic_moe_gemm_kernelLauncher dev T WeightType arch tag tb warp st
            p gemm_config mp None s)
    with (launch_kernel dev k p gemm_config mp None s) in Hrun.
  apply launch_kernel_calls in Hrun as (new & Htr & Hall).
  exists new. split; [exact Htr |].
  eapply List.Forall_impl; [| exact Hall]. intros e [_ Hargs] args Hsome.
  rewrite (Hargs _ Hsome). unfold launch_arguments. simpl.
  unfold int_mul. rewrite wrap_int_in_range.
  - split; [reflexivity | nia].
  - unfold in_int_range. nia.
Qed.

(** X7: the zero-occupancy guard catches zero only.  When
    [maximum_active_blocks] reports a negative number the launcher does not
    throw the shared-memory error: it goes on to [can_implement] with a
    negative threadblock count, the product of the multiprocessor count and
    that number. *)
Theorem launcher_negative_occupancy_not_rejected dev T WeightType arch tag tb
  warp st p gemm_config mp s :
  let k :=
    {| kT := T; kWeightType := WeightType; karch := arch; kEpilogueTag := tag;
       kThreadblockShape := tb; kWarpShape := warp; kStages := st |} in
  split_k_style gemm_config = NO_SPLIT_K ->
  maximum_active_blocks dev k < 0 ->
  0 < mp ->
  in_int_range (mp * maximum_active_blocks dev k) ->
  exists r s' rest,
    generic_moe_gemm_kernelLauncher dev T WeightType arch tag tb warp st p
      gemm_config mp None s
    = (r, s')
    /\ r <> Throw LacksSharedMemory
    /\ trace s'
       = trace s
           ++ EvMaximumActiveBlocks k
           :: EvCanImplement k
                (GemmGrouped_Arguments p (mp * maximum_active_blocks dev k))
           :: rest
    /\ mp * maximum_active_blocks dev k < 0.
Proof.
  intros k Hsplit Hneg Hmp Hrange.
  change (generic_moe_gemm_kernelLauncher dev T WeightType arch tag tb warp st
            p gemm_config mp None s)
    with (launch_kernel dev k p gemm_config mp None s).
  rewrite launch_kernel_steps by assumption. cbv zeta.
  assert (Z.min 2 (maximum_active_blocks dev k) = maximum_active_blocks dev k)
    as Hmin by lia.
  assert (launch_arguments dev k p mp
          = GemmGrouped_Arguments p (mp * maximum_active_blocks dev k)) as ->.
  { unfold launch_arguments, int_mul. rewrite Hmin.
    now rewrite wrap_int_in_range. }
  rewrite Hmin. destruct (Z.eqb_spec (maximum_active_blocks dev k) 0); [lia |].
  destruct (gemm_can_implement _ _ _).
  2:{ do 3 eexists. split; [reflexivity |]. split; [discriminate |].
      split; [simpl; now rewrite <- app_assoc | nia]. }
  destruct (gemm_initialize _ _ _).
  2:{ do 3 eexists. split; [reflexivity |]. split; [discriminate |].
      split; [simpl; now rewrite <- !app_assoc | nia]. }
  destruct (fst _); do 3 eexists; (split; [reflexivity |]);
    (split; [discriminate |]); (split; [reflexivity | nia]).
Qed.

(** *** What the probing pass hands to the device *)

Lemma probe_occupancies_calls dev this T WeightType tag p candidate_configs :
  forall ii s r s1,
    probe_occupancies dev this T WeightType tag p candidate_configs ii s
    = (r, s1) ->
    exists kernels,
      trace s1 = trace s ++ map EvComputeOccupancy kernels
      /\ device_mem s1 = device_mem s
      /\ Forall (fun k =>
                   exists c, resolve_kernel (sm_ this) T WeightType tag c = Ok k)
           kernels.
Proof.
  induction candidate_configs as [| c rest IH]; intros ii s r s1 H.
  - injection H as <- <-. exists []. now rewrite app_nil_r.
  - simpl in H. unfold bind in H. rewrite dispatch_to_arch_probe in H.
    destruct (resolve_kernel _ _ _ _ c) as [k | e] eqn:Hres.
    2:{ injection H as <- <-. exists []. now rewrite app_nil_r. }
    destruct (is_no_split_k (split_k_style c)).
    2:{ injection H as <- <-. exists []. now rewrite app_nil_r. }
    apply IH in H as (ks & Ht & Hm & Hall). simpl in Ht, Hm.
    exists (k :: ks). split; [| split; [exact Hm |]].
    + rewrite Ht, <- app_assoc. reflexivity.
    + constructor; [eauto | exact Hall].
Qed.

Lemma resolved_kernel_call dev sm T WeightType tag p mp c k e :
  resolve_kernel sm T WeightType tag c = Ok k ->
  event_kernel e = k ->
  (forall args, event_arguments e = Some args ->
                args = launch_arguments dev k p mp) ->
  call_on_behalf_of dev T WeightType tag sm p mp e.
Proof.
  intros Hres Hk Hargs. apply resolve_kernel_ok in Hres
    as (_ & _ & _ & HT & HW & Htag & Harch & _).
  unfold call_on_behalf_of. rewrite Hk. repeat split; assumption.
Qed.

Lemma run_gemm_calls h dev this T WeightType tag p s r s' :
  run_gemm h dev this T WeightType tag p s = (r, s') ->
  exists new,
    trace s' = trace s ++ new
    /\ Forall (call_on_behalf_of dev T WeightType tag (sm_ this) p
                 (multi_processor_count_ this)) new.
Proof.
  intros Hrun. rewrite run_gemm_phases in Hrun. cbv zeta in Hrun.
  destruct (probe_occupancies _ _ _ _ _ _ _ _ _) as [r1 s1] eqn:Hprobe.
  apply probe_occupancies_calls in Hprobe as (ks & Htr & _ & Hks).
  simpl in Htr.
  assert (Forall (call_on_behalf_of dev T WeightType tag (sm_ this) p
                    (multi_processor_count_ this))
            (map EvComputeOccupancy ks)) as Hprobes.
  { apply List.Forall_map. eapply List.Forall_impl; [| exact Hks].
    intros k [c Hres]. simpl.
    eapply resolved_kernel_call; [exact Hres | reflexivity | discriminate]. }
  destruct r1 as [[] | e].
  2:{ injection Hrun as <- <-. eauto. }
  unfold select_config in Hrun.
  destruct (estimate_best_config_from_occupancies _ _ _ _ _ _ _ _ _ _ _)
    as [chosen | e].
  2:{ injection Hrun as <- <-. eauto. }
  rewrite dispatch_to_arch_resolves in Hrun.
  destruct (resolve_kernel _ _ _ _ chosen) as [k | e] eqn:Hres.
  2:{ injection Hrun as <- <-. eauto. }
  apply launch_kernel_calls in Hrun as (new & Htr' & Hnew).
  exists (map EvComputeOccupancy ks ++ new). split.
  - rewrite Htr', Htr. symmetry. apply List.app_assoc.
  - apply List.Forall_app. split; [exact Hprobes |].
    eapply List.Forall_impl; [| exact Hnew]. intros e [Hk Hargs].
    eapply resolved_kernel_call; eassumption.
Qed.

(** X8: every device call [moe_gemm_bias_act] makes, whatever the outcome,
    is about a kernel instantiated for the runner's element types, the
    architecture of its capability band and the bias epilogue of the
    activation (never the no-bias epilogue), and every argument block is the
    one built from the caller's operands, bias and output pointers
    included. *)
Theorem moe_gemm_bias_act_device_calls h dev this T WeightType p
  activation_type s r s' :
  moe_gemm_bias_act h dev this T WeightType p activation_type s = (r, s') ->
  let tag :=
    match activation_type with
    | Relu => EpilogueOpBiasReLU
    | Gelu => EpilogueOpBiasFtGelu
    | Silu => EpilogueOpBiasSilu
    | _ => EpilogueOpBias
    end in
  exists new,
    trace s' = trace s ++ new
    /\ Forall (call_on_behalf_of dev T WeightType tag (sm_ this) p
                 (multi_processor_count_ this)) new
    /\ Forall (fun e => kEpilogueTag (event_kernel e) <> EpilogueOpNoBias) new
    /\ Forall (fun e =>
                 forall args,
                   event_arguments e = Some args ->
                   arg_biases args = gp_biases p /\ arg_C args = gp_C p) new.
Proof.
  intros Hrun tag.
  assert (exists new,
            trace s' = trace s ++ new
            /\ Forall (call_on_behalf_of dev T WeightType tag (sm_ this) p
                         (multi_processor_count_ this)) new)
    as (new & Htr & Hall).
  { destruct activation_type; simpl in Hrun;
      try (apply run_gemm_calls in Hrun; exact Hrun);
      injection Hrun as <- <-; exists []; now rewrite app_nil_r. }
  exists new. repeat split; try assumption.
  - eapply List.Forall_impl; [| exact Hall].
    intros e (_ & _ & Htag & _). rewrite Htag.
    unfold tag. destruct activation_type; discriminate.
  - eapply List.Forall_impl; [| exact Hall].
    intros e (_ & _ & _ & _ & Hargs) args Hsome.
    rewrite (Hargs _ Hsome). now split.
Qed.

(** X9: every device call [moe_gemm] makes, whatever the outcome, is about
    a kernel with the no-bias epilogue, and every argument block carries a
    null bias pointer and otherwise the caller's operands unchanged. *)
Theorem moe_gemm_device_calls h dev this T WeightType p s r s' :
  moe_gemm h dev this T WeightType p s = (r, s') ->
  exists new,
    trace s' = trace s ++ new
    /\ Forall (call_on_behalf_of dev T WeightType EpilogueOpNoBias (sm_ this)
                 (without_biases p) (multi_processor_count_ this)) new
    /\ Forall (fun e =>
                 forall args,
                   event_arguments e = Some args ->
                   arg_biases args = nullptr
                   /\ arg_A args = gp_A p /\ arg_B args = gp_B p
                   /\ arg_weight_scales args = gp_weight_scales p
                   /\ arg_C args = gp_C p
                   /\ arg_total_rows_before_expert args
                      = gp_total_rows_before_expert p
                   /\ arg_num_experts args = gp_num_experts p
                   /\ arg_gemm_n args = gp_gemm_n p
                   /\ arg_gemm_k args = gp_gemm_k p) new.
Proof.
  intros Hrun. unfold moe_gemm in Hrun. fold (without_biases p) in Hrun.
  apply run_gemm_calls in Hrun as (new & Htr & Hall).
  exists new. repeat split; try assumption.
  eapply List.Forall_impl; [| exact Hall].
  intros e (_ & _ & _ & _ & Hargs) args Hsome.
  rewrite (Hargs _ Hsome). repeat split.
Qed.

(** *** Device memory *)

Ltac count_launches :=
  unfold launches; rewrite ?List.filter_app, ?length_app; simpl; lia.

Lemma launch_kernel_memory dev k p gemm_config mp s r s' :
  launch_kernel dev k p gemm_config mp None s = (r, s') ->
  (forall e, r = Throw e -> (forall msg, e <> RunFailed msg) ->
             device_mem s' = device_mem s
             /\ launches (trace s') = launches (trace s))
  /\ (r = Ok tt ->
      device_mem s'
      = snd (gemm_run dev k (launch_arguments dev k p mp) (gp_stream p)
               (device_mem s))
      /\ fst (gemm_run dev k (launch_arguments dev k p mp) (gp_stream p)
                (device_mem s)) = kSuccess
      /\ launches (trace s') = (launches (trace s) + 1)%nat).
Proof.
  destruct (split_k_style gemm_config) eqn:Hsplit.
  2:{ rewrite launch_kernel_split_k by (rewrite Hsplit; discriminate).
      intros [= <- <-]. split; [now split | discriminate]. }
  rewrite launch_kernel_steps by assumption. cbv zeta.
  destruct (Z.min 2 _ =? 0).
  { intros [= <- <-]. split; [| discriminate]. intros e _ _. simpl.
    split; [reflexivity |]. count_launches. }
  destruct (gemm_can_implement _ _ _).
  2:{ intros [= <- <-]. split; [| discriminate]. intros e _ _. simpl.
      split; [reflexivity |]. count_launches. }
  destruct (gemm_initialize _ _ _).
  2:{ intros [= <- <-]. split; [| discriminate]. intros e _ _. simpl.
      split; [reflexivity |]. count_launches. }
  destruct (fst _) eqn:Hrun; intros [= <- <-].
  - split; [discriminate |]. intros _. simpl.
    repeat split. count_launches.
  - split; [| discriminate]. intros e [= <-] Hne.
    now destruct (Hne status_string).
Qed.

(** X10: [run_gemm] changes device memory only through the one kernel it
    runs.  When it throws anything but the failed-to-run error, device
    memory is as before and nothing was launched; when it returns normally,
    the heuristic has chosen a configuration, the trace ends with the
    launch of the kernel that configuration resolves to, nothing was
    launched before it, and device memory is what that single successful
    [run] of the chosen kernel made of the memory the call started with. *)
Theorem run_gemm_device_memory h dev this T WeightType tag p s r s' :
  run_gemm h dev this T WeightType tag p s = (r, s') ->
  (forall e, r = Throw e -> (forall msg, e <> RunFailed msg) ->
             device_mem s' = device_mem s
             /\ launches (trace s') = launches (trace s))
  /\ (r = Ok tt ->
      exists chosen_config k earlier,
        estimate_best_config_from_occupancies h
          (get_candidate_configs h (sm_ this) (negb (is_same T WeightType))
             (is_same T float))
          (occupancies s') (gp_total_rows p) (gp_gemm_n p) (gp_gemm_k p)
          (gp_num_experts p) split_k_limit workspace_bytes
          (multi_processor_count_ this) (negb (is_same T WeightType))
        = Ok chosen_config
        /\ resolve_kernel (sm_ this) T WeightType tag chosen_config = Ok k
        /\ trace s'
           = trace s ++ earlier
               ++ launch_events dev k p (multi_processor_count_ this)
        /\ launches earlier = 0%nat
        /\ device_mem s'
           = snd (gemm_run dev k
                    (launch_arguments dev k p (multi_processor_count_ this))
                    (gp_stream p) (device_mem s))
        /\ fst (gemm_run dev k
                  (launch_arguments dev k p (multi_processor_count_ this))
                  (gp_stream p) (device_mem s)) = kSuccess
        /\ launches (trace s') = (launches (trace s) + 1)%nat).
Proof.
  intros Hrun. rewrite run_gemm_phases in Hrun. cbv zeta in Hrun.
  destruct (probe_occupancies _ _ _ _ _ _ _ _ _) as [r1 s1] eqn:Hprobe.
  apply probe_occupancies_calls in Hprobe as (ks & Htr & Hmem & _).
  simpl in Htr, Hmem.
  assert (launches (trace s1) = launches (trace s)) as Hl.
  { rewrite Htr, launches_app, launches_probes. lia. }
  destruct r1 as [[] | e1].
  2:{ injection Hrun as <- <-. split; [now split | discriminate]. }
  unfold select_config in Hrun.
  destruct (estimate_best_config_from_occupancies _ _ _ _ _ _ _ _ _ _ _)
    as [chosen | e1] eqn:Hsel.
  2:{ injection Hrun as <- <-. split; [now split | discriminate]. }
  rewrite dispatch_to_arch_resolves in Hrun.
  destruct (resolve_kernel _ _ _ _ chosen) as [k | e1] eqn:Hres.
  2:{ injection Hrun as <- <-. split; [now split | discriminate]. }
  pose proof (launch_kernel_outcome _ _ _ _ _ _ _ _ Hrun)
    as (Hsame & _ & Hevents).
  apply launch_kernel_memory in Hrun as [Hthrow Hok]. split.
  - intros e He Hne. destruct (Hthrow e He Hne) as [Hm Hla]. split; congruence.
  - intros He. destruct (Hok He) as (Hm & Hst & Hla).
    destruct (Hevents He) as [_ Hev].
    exists chosen, k, (map EvComputeOccupancy ks). rewrite <- Hmem, Hsame.
    repeat split; try assumption.
    + rewrite Hev, Htr. symmetry. apply List.app_assoc.
    + apply launches_probes.
    + lia.
Qed.

(** X11: [initialize] stores any capability without checking it; on a
    runner initialised with a capability outside [70,90) (90 included)
    [run_gemm] always throws, makes no device call at all and leaves device
    memory alone, and with a non-empty catalog the exception is the
    unsupported-architecture error. *)
Theorem unsupported_sm_never_reaches_device h dev sm_version T WeightType tag p
  s r s' :
  ~ (70 <= sm_version < 90) ->
  run_gemm h dev (initialize dev sm_version) T WeightType tag p s = (r, s') ->
  (exists e, r = Throw e)
  /\ trace s' = trace s
  /\ device_mem s' = device_mem s
  /\ (get_candidate_configs h sm_version (negb (is_same T WeightType))
        (is_same T float) <> [] ->
      r = Throw ArchUnsupported).
Proof.
  intros Hsm Hrun. rewrite run_gemm_phases in Hrun. cbv zeta in Hrun.
  change (sm_ (initialize dev sm_version)) with sm_version in Hrun.
  assert (forall c occupancy s0,
            dispatch_to_arch dev (initialize dev sm_version) T WeightType tag p
              c occupancy s0 = (Throw ArchUnsupported, s0)) as Harch.
  { intros c occupancy s0. rewrite dispatch_to_arch_resolves.
    unfold resolve_kernel.
    change (sm_ (initialize dev sm_version)) with sm_version.
    now rewrite (resolve_arch_unsupported _ Hsm). }
  destruct (get_candidate_configs h sm_version _ _) as [| c rest].
  - simpl in Hrun. unfold select_config in Hrun. simpl in Hrun.
    destruct (estimate_best_config_from_occupancies _ _ _ _ _ _ _ _ _ _ _)
      as [chosen | e].
    + rewrite Harch in Hrun. injection Hrun as <- <-.
      repeat split; eauto; contradiction.
    + injection Hrun as <- <-. repeat split; eauto; contradiction.
  - simpl in Hrun. unfold bind in Hrun. rewrite Harch in Hrun.
    injection Hrun as <- <-. repeat split; eauto.
Qed.

(** *** Which exception a defective configuration gets *)

Lemma resolve_shapes_rejected path t :
  ~ In t (accepted_tiles path) ->
  resolve_shapes path t
  = Throw match t with
          | Undefined => ConfigUndefined path
          | ChooseWithHeuristic => ConfigNotSetByHeuristic path
          | _ => ConfigInvalidForPath path
          end.
Proof.
  destruct path, t; simpl; intros H; try reflexivity;
    exfalso; apply H; tauto.
Qed.

(** X12: which exception a defective configuration gets from
    [dispatch_to_arch], in probe and in launch mode alike: an unsupported
    capability wins over everything; then a tile tag the overload has no
    case for (undefined, not set by the heuristic, or invalid for the
    path); then a stage count outside {2,3,4}, or 3 or 4 below capability
    80, where the message names the band (70 or 75), not the device; and
    split-k is reported only for a configuration that is otherwise
    accepted.  The state is unchanged in every case. *)
Theorem dispatch_error_precedence dev this T WeightType tag p gemm_config
  occupancy s :
  let path := dispatch_path T WeightType in
  (~ (70 <= sm_ this < 90) ->
   dispatch_to_arch dev this T WeightType tag p gemm_config occupancy s
   = (Throw ArchUnsupported, s))
  /\ (70 <= sm_ this < 90 ->
      ~ In (tile_config gemm_config) (accepted_tiles path) ->
      dispatch_to_arch dev this T WeightType tag p gemm_config occupancy s
      = (Throw match tile_config gemm_config with
               | Undefined => ConfigUndefined path
               | ChooseWithHeuristic => ConfigNotSetByHeuristic path
               | _ => ConfigInvalidForPath path
               end, s))
  /\ (70 <= sm_ this < 90 ->
      In (tile_config gemm_config) (accepted_tiles path) ->
      stages gemm_config <> 2 -> stages gemm_config <> 3 ->
      stages gemm_config <> 4 ->
      dispatch_to_arch dev this T WeightType tag p gemm_config occupancy s
      = (Throw (StagesNotSupported (stages gemm_config)), s))
  /\ (70 <= sm_ this < 80 ->
      In (tile_config gemm_config) (accepted_tiles path) ->
      stages gemm_config = 3 \/ stages gemm_config = 4 ->
      dispatch_to_arch dev this T WeightType tag p gemm_config occupancy s
      = (Throw (StagesNotInstantiated (if sm_ this <? 75 then 70 else 75)
                  (stages gemm_config)), s))
  /\ (70 <= sm_ this < 90 ->
      In (tile_config gemm_config) (accepted_tiles path) ->
      stages gemm_config = 2
      \/ ((stages gemm_config = 3 \/ stages gemm_config = 4)
          /\ 80 <= sm_ this) ->
      split_k_style gemm_config <> NO_SPLIT_K ->
      dispatch_to_arch dev this T WeightType tag p gemm_config occupancy s
      = (Throw SplitKNotSupported, s)).
Proof.
  intros path. rewrite dispatch_to_arch_resolves. unfold resolve_kernel.
  fold path. repeat split.
  - intros Hsm. now rewrite resolve_arch_unsupported.
  - intros Hsm Htile. destruct (resolve_arch_supported _ Hsm) as [arch ->].
    now rewrite resolve_shapes_rejected.
  - intros Hsm Htile H2 H3 H4.
    destruct (resolve_arch_supported _ Hsm) as [arch ->].
    apply resolve_shapes_accepted in Htile as [[tb warp] ->].
    now rewrite resolve_stages_outside.
  - intros Hsm Htile Hst.
    apply resolve_shapes_accepted in Htile as [[tb warp] Hs].
    destruct (Z.ltb_spec (sm_ this) 75).
    + rewrite resolve_arch_Sm70, Hs, resolve_stages_lower_tier
        by (assumption || lia || discriminate). reflexivity.
    + rewrite resolve_arch_Sm75, Hs, resolve_stages_lower_tier
        by (assumption || lia || discriminate). reflexivity.
  - intros Hsm Htile Hst Hsplit.
    destruct (resolve_kernel_accepts _ T WeightType tag _ Hsm Htile Hst)
      as [k Hres].
    unfold resolve_kernel in Hres. fold path in Hres.
    destruct (resolve_arch _) as [arch |]; [| discriminate].
    destruct (resolve_shapes _ _) as [[tb warp] |]; [| discriminate].
    destruct (resolve_stages _ _) as [st |]; [| discriminate].
    now apply launch_kernel_split_k.
Qed.

End Coverage.

(** ** The further properties at concrete calls *)

(** A two-stage configuration probed on an [sm_] of 75 and of 80. *)
Lemma top_tier_accepts_lower_tier_configs_witness :
  (dispatch_to_arch roomy_device turing_runner half half EpilogueOpBiasReLU
     sample_problem (sample_config sample_tile 2) (Some 0%nat)
     (probing_state 3 fresh_state)
   = (Ok tt, snd turing_probe)
   /\ 80 <= sm_ ampere_runner < 90)
  /\ exists k s1',
       trace (snd turing_probe)
       = trace (probing_state 3 fresh_state) ++ [EvComputeOccupancy k]
       /\ dispatch_to_arch roomy_device ampere_runner half half
            EpilogueOpBiasReLU sample_problem (sample_config sample_tile 2)
            (Some 1%nat) busy_state
          = (Ok tt, s1')
       /\ trace s1'
          = trace busy_state
              ++ [EvComputeOccupancy
                    {| kT := kT k; kWeightType := kWeightType k; karch := Sm80;
                       kEpilogueTag := kEpilogueTag k;
                       kThreadblockShape := kThreadblockShape k;
                       kWarpShape := kWarpShape k; kStages := kStages k |}].
Proof.
  assert (dispatch_to_arch roomy_device turing_runner half half
            EpilogueOpBiasReLU sample_problem (sample_config sample_tile 2)
            (Some 0%nat) (probing_state 3 fresh_state)
          = (Ok tt, snd turing_probe)) as H by (vm_compute; reflexivity).
  assert (80 <= sm_ ampere_runner < 90) as Hsm by (simpl; lia).
  split; [exact (conj H Hsm) |].
  exact (top_tier_accepts_lower_tier_configs roomy_device turing_runner
           ampere_runner half half EpilogueOpBiasReLU sample_problem
           (sample_config sample_tile 2) 0%nat 1%nat
           (probing_state 3 fresh_state) (snd turing_probe) busy_state H Hsm).
Defined.

(** The SIMT tile is accepted for [float] and refused for [half]. *)
Lemma float_and_tensorop_configs_exclusive_witness :
  (is_same float float <> is_same half float
   /\ dispatch_to_arch roomy_device ampere_runner float float
        EpilogueOpBiasReLU sample_problem simt_config (Some 0%nat)
        (probing_state 1 fresh_state)
      = (Ok tt, snd float_probe))
  /\ dispatch_to_arch roomy_device ampere_runner half half EpilogueOpBias
       moved_problem simt_config None busy_state
     = (Throw (ConfigInvalidForPath (dispatch_path half half)), busy_state).
Proof.
  assert (is_same float float <> is_same half float) as Hne by discriminate.
  assert (dispatch_to_arch roomy_device ampere_runner float float
            EpilogueOpBiasReLU sample_problem simt_config (Some 0%nat)
            (probing_state 1 fresh_state)
          = (Ok tt, snd float_probe)) as H by (vm_compute; reflexivity).
  split; [exact (conj Hne H) |].
  exact (float_and_tensorop_configs_exclusive roomy_device ampere_runner
           float float half half EpilogueOpBiasReLU EpilogueOpBias
           sample_problem moved_problem simt_config 0%nat None
           (probing_state 1 fresh_state) (snd float_probe) busy_state Hne H).
Defined.

(** On the starved device the probe goes through and the launch fails for
    lack of resources. *)
Lemma probed_config_fails_only_on_device_witness :
  (dispatch_to_arch starved_device ampere_runner half half EpilogueOpBiasReLU
     sample_problem (sample_config sample_tile 2) (Some 0%nat)
     (probing_state 1 fresh_state)
   = (Ok tt, snd starved_probe)
   /\ dispatch_to_arch starved_device ampere_runner half half
        EpilogueOpBiasReLU sample_problem (sample_config sample_tile 2) None
        busy_state
      = (Throw LacksSharedMemory, snd starved_launch))
  /\ (error_class LacksSharedMemory = ResourceError
      \/ error_class LacksSharedMemory = PreflightRejection
      \/ error_class LacksSharedMemory = LaunchError)
  /\ exists k rest,
       trace (snd starved_probe)
       = trace (probing_state 1 fresh_state) ++ [EvComputeOccupancy k]
       /\ trace (snd starved_launch)
          = trace busy_state ++ EvMaximumActiveBlocks k :: rest.
Proof.
  assert (dispatch_to_arch starved_device ampere_runner half half
            EpilogueOpBiasReLU sample_problem (sample_config sample_tile 2)
            (Some 0%nat) (probing_state 1 fresh_state)
          = (Ok tt, snd starved_probe)) as H1 by (vm_compute; reflexivity).
  assert (dispatch_to_arch starved_device ampere_runner half half
            EpilogueOpBiasReLU sample_problem (sample_config sample_tile 2)
            None busy_state
          = (Throw LacksSharedMemory, snd starved_launch)) as H2
    by (vm_compute; reflexivity).
  split; [exact (conj H1 H2) |].
  exact (probed_config_fails_only_on_device starved_device ampere_runner half
           half EpilogueOpBiasReLU sample_problem
           (sample_config sample_tile 2) 0%nat (probing_state 1 fresh_state)
           (snd starved_probe) busy_state (snd starved_launch)
           LacksSharedMemory H1 H2).
Defined.

(** 108 multiprocessors and two resident blocks: 216 threadblocks. *)
Lemma launcher_threadblock_count_bounds_witness :
  (0 < maximum_active_blocks roomy_device sample_kernel
   /\ 0 <= 108 < 2 ^ 30
   /\ generic_moe_gemm_kernelLauncher roomy_device half half Sm80
        EpilogueOpBiasReLU (Shape 32 128 64) (Shape 32 32 64) 2
        sample_problem (sample_config sample_tile 2) 108 None fresh_state
      = (fst sample_launch, snd sample_launch))
  /\ exists new,
       trace (snd sample_launch) = trace fresh_state ++ new
       /\ Forall (fun e =>
                    forall args,
                      event_arguments e = Some args ->
                      arg_threadblock_count args
                      = 108 * Z.min 2 (maximum_active_blocks roomy_device
                                         sample_kernel)
                      /\ 108 <= arg_threadblock_count args <= 2 * 108) new.
Proof.
  assert (0 < maximum_active_blocks roomy_device sample_kernel) as H1
    by reflexivity.
  assert (0 <= 108 < 2 ^ 30) as H2 by (split; [discriminate | reflexivity]).
  assert (generic_moe_gemm_kernelLauncher roomy_device half half Sm80
            EpilogueOpBiasReLU (Shape 32 128 64) (Shape 32 32 64) 2
            sample_problem (sample_config sample_tile 2) 108 None fresh_state
          = (fst sample_launch, snd sample_launch)) as H3
    by (vm_compute; reflexivity).
  split; [exact (conj H1 (conj H2 H3)) |].
  exact (launcher_threadblock_count_bounds roomy_device half half Sm80
           EpilogueOpBiasReLU (Shape 32 128 64) (Shape 32 32 64) 2
           sample_problem (sample_config sample_tile 2) 108 fresh_state
           (fst sample_launch) (snd sample_launch) H1 H2 H3).
Defined.

(** A failed occupancy query ([-1]) on 108 multiprocessors: the feasibility
    check is asked about [-108] threadblocks. *)
Lemma launcher_negative_occupancy_not_rejected_witness :
  (split_k_style (sample_config sample_tile 2) = NO_SPLIT_K
   /\ maximum_active_blocks erroring_device sample_kernel < 0
   /\ 0 < 108
   /\ in_int_range (108 * maximum_active_blocks erroring_device sample_kernel))
  /\ exists r s' rest,
       generic_moe_gemm_kernelLauncher erroring_device half half Sm80
         EpilogueOpBiasReLU (Shape 32 128 64) (Shape 32 32 64) 2
         sample_problem (sample_config sample_tile 2) 108 None fresh_state
       = (r, s')
       /\ r <> Throw LacksSharedMemory
       /\ trace s'
          = trace fresh_state
              ++ EvMaximumActiveBlocks sample_kernel
              :: EvCanImplement sample_kernel
                   (GemmGrouped_Arguments sample_problem
                      (108 * maximum_active_blocks erroring_device
                               sample_kernel))
              :: rest
       /\ 108 * maximum_active_blocks erroring_device sample_kernel < 0.
Proof.
  assert (maximum_active_blocks erroring_device sample_kernel < 0) as H1
    by reflexivity.
  assert (0 < 108) as H2 by reflexivity.
  assert (in_int_range
            (108 * maximum_active_blocks erroring_device sample_kernel)) as H3
    by (split; [discriminate | reflexivity]).
  split; [exact (conj eq_refl (conj H1 (conj H2 H3))) |].
  exact (launcher_negative_occupancy_not_rejected erroring_device half half
           Sm80 EpilogueOpBiasReLU (Shape 32 128 64) (Shape 32 32 64) 2
           sample_problem (sample_config sample_tile 2) 108 fresh_state
           eq_refl H1 H2 H3).
Defined.

(** The sample call with the SiLU activation. *)
Lemma moe_gemm_bias_act_device_calls_witness :
  moe_gemm_bias_act occupancy_heuristic roomy_device ampere_runner half half
    sample_problem Silu busy_state
  = (fst sample_activation_run, snd sample_activation_run)
  /\ exists new,
       trace (snd sample_activation_run) = trace busy_state ++ new
       /\ Forall (call_on_behalf_of roomy_device half half EpilogueOpBiasSilu
                    (sm_ ampere_runner) sample_problem
                    (multi_processor_count_ ampere_runner)) new
       /\ Forall (fun e => kEpilogueTag (event_kernel e) <> EpilogueOpNoBias)
            new
       /\ Forall (fun e =>
                    forall args,
                      event_arguments e = Some args ->
                      arg_biases args = gp_biases sample_problem
                      /\ arg_C args = gp_C sample_problem) new.
Proof.
  assert (moe_gemm_bias_act occupancy_heuristic roomy_device ampere_runner
            half half sample_problem Silu busy_state
          = (fst sample_activation_run, snd sample_activation_run)) as H
    by (vm_compute; reflexivity).
  split; [exact H |].
  exact (moe_gemm_bias_act_device_calls occupancy_heuristic roomy_device
           ampere_runner half half sample_problem Silu busy_state
           (fst sample_activation_run) (snd sample_activation_run) H).
Defined.

(** The sample call without activation: the bias pointer of the sample
    problem is dropped. *)
Lemma moe_gemm_device_calls_witness :
  moe_gemm occupancy_heuristic roomy_device ampere_runner half half
    sample_problem busy_state
  = (fst sample_no_bias_run, snd sample_no_bias_run)
  /\ exists new,
       trace (snd sample_no_bias_run) = trace busy_state ++ new
       /\ Forall (call_on_behalf_of roomy_device half half EpilogueOpNoBias
                    (sm_ ampere_runner) (without_biases sample_problem)
                    (multi_processor_count_ ampere_runner)) new
       /\ Forall (fun e =>
                    forall args,
                      event_arguments e = Some args ->
                      arg_biases args = nullptr
                      /\ arg_A args = gp_A sample_problem
                      /\ arg_B args = gp_B sample_problem
                      /\ arg_weight_scales args
                         = gp_weight_scales sample_problem
                      /\ arg_C args = gp_C sample_problem
                      /\ arg_total_rows_before_expert args
                         = gp_total_rows_before_expert sample_problem
                      /\ arg_num_experts args = gp_num_experts sample_problem
                      /\ arg_gemm_n args = gp_gemm_n sample_problem
                      /\ arg_gemm_k args = gp_gemm_k sample_problem) new.
Proof.
  assert (moe_gemm occupancy_heuristic roomy_device ampere_runner half half
            sample_problem busy_state
          = (fst sample_no_bias_run, snd sample_no_bias_run)) as H
    by (vm_compute; reflexivity).
  split; [exact H |].
  exact (moe_gemm_device_calls occupancy_heuristic roomy_device ampere_runner
           half half sample_problem busy_state (fst sample_no_bias_run)
           (snd sample_no_bias_run) H).
Defined.

(** The sample call end to end: device memory afterwards is what the one
    kernel wrote. *)
Lemma run_gemm_device_memory_witness :
  run_gemm occupancy_heuristic roomy_device ampere_runner half half
    EpilogueOpBiasReLU sample_problem fresh_state
  = (fst sample_run, snd sample_run)
  /\ (forall e, fst sample_run = Throw e -> (forall msg, e <> RunFailed msg) ->
                device_mem (snd sample_run) = device_mem fresh_state
                /\ launches (trace (snd sample_run))
                   = launches (trace fresh_state))
  /\ (fst sample_run = Ok tt ->
      exists chosen_config k earlier,
        estimate_best_config_from_occupancies occupancy_heuristic
          (get_candidate_configs occupancy_heuristic (sm_ ampere_runner)
             (negb (is_same half half)) (is_same half float))
          (occupancies (snd sample_run)) (gp_total_rows sample_problem)
          (gp_gemm_n sample_problem) (gp_gemm_k sample_problem)
          (gp_num_experts sample_problem) split_k_limit workspace_bytes
          (multi_processor_count_ ampere_runner) (negb (is_same half half))
        = Ok chosen_config
        /\ resolve_kernel (sm_ ampere_runner) half half EpilogueOpBiasReLU
             chosen_config = Ok k
        /\ trace (snd sample_run)
           = trace fresh_state ++ earlier
               ++ launch_events roomy_device k sample_problem
                    (multi_processor_count_ ampere_runner)
        /\ launches earlier = 0%nat
        /\ device_mem (snd sample_run)
           = snd (gemm_run roomy_device k
                    (launch_arguments roomy_device k sample_problem
                       (multi_processor_count_ ampere_runner))
                    (gp_stream sample_problem) (device_mem fresh_state))
        /\ fst (gemm_run roomy_device k
                  (launch_arguments roomy_device k sample_problem
                     (multi_processor_count_ ampere_runner))
                  (gp_stream sample_problem) (device_mem fresh_state))
           = kSuccess
        /\ launches (trace (snd sample_run))
           = (launches (trace fresh_state) + 1)%nat).
Proof.
  assert (run_gemm occupancy_heuristic roomy_device ampere_runner half half
            EpilogueOpBiasReLU sample_problem fresh_state
          = (fst sample_run, snd sample_run)) as H
    by (vm_compute; reflexivity).
  split; [exact H |].
  exact (run_gemm_device_memory occupancy_heuristic roomy_device ampere_runner
           half half EpilogueOpBiasReLU sample_problem fresh_state
           (fst sample_run) (snd sample_run) H).
Defined.

(** A runner initialised for an [sm_] of 90. *)
Lemma unsupported_sm_never_reaches_device_witness :
  (~ (70 <= 90 < 90)
   /\ run_gemm occupancy_heuristic roomy_device (initialize roomy_device 90)
        half half EpilogueOpBiasReLU sample_problem busy_state
      = (fst hopper_run, snd hopper_run))
  /\ (exists e, fst hopper_run = Throw e)
  /\ trace (snd hopper_run) = trace busy_state
  /\ device_mem (snd hopper_run) = device_mem busy_state
  /\ (get_candidate_configs occupancy_heuristic 90 (negb (is_same half half))
        (is_same half float) <> [] ->
      fst hopper_run = Throw ArchUnsupported).
Proof.
  assert (~ (70 <= 90 < 90)) as Hsm by lia.
  assert (run_gemm occupancy_heuristic roomy_device
            (initialize roomy_device 90) half half EpilogueOpBiasReLU
            sample_problem busy_state
          = (fst hopper_run, snd hopper_run)) as H
    by (vm_compute; reflexivity).
  split; [exact (conj Hsm H) |].
  exact (unsupported_sm_never_reaches_device occupancy_heuristic roomy_device
           90 half half EpilogueOpBiasReLU sample_problem busy_state
           (fst hopper_run) (snd hopper_run) Hsm H).
Defined.
